(** * Fraud message detection engine (src/python/fraud_detector.py)

    Shallow embedding of the scoring engine: the pattern registry, the five
    detectors ([analyze_keywords], [analyze_urls], [analyze_urgency],
    [analyze_sensitive_requests], [simple_nlp_fraud_score]) and [detect_fraud].

    Modelling choices:
    - A Python [str] is a Rocq [string], one [ascii] per code point; the model
      covers messages whose code points are below 256 (Latin-1), and the
      character predicates below are Python's for that range.
    - Python [float] is IEEE-754 binary64, modelled with Corelib's [SpecFloat]
      at precision 53 and maximal exponent 1024.
    - The regular expressions of the registry are written as terms of a small
      regex syntax with a backtracking matcher that tries alternatives in the
      order of Python's [re] (greedy repetitions try one more first). *)

From Stdlib Require Import ZArith QArith Qround List String Ascii Bool Lia.
From Stdlib Require Import Floats.SpecFloat.
Import ListNotations.
Open Scope string_scope.
Open Scope nat_scope.

(** ** Characters (Latin-1 code points) *)

Definition code (c : ascii) : nat := nat_of_ascii c.

(** [str.isspace] / regex [\s] on U+0000..U+00FF. *)
Definition is_space (c : ascii) : bool :=
  let n := code c in
  ((Nat.leb 9 n) && (Nat.leb n 13)) || ((Nat.leb 28 n) && (Nat.leb n 32))
  || (Nat.eqb n 133) || (Nat.eqb n 160).

(** [str.isupper] of a single character (category Lu). *)
Definition is_upper_char (c : ascii) : bool :=
  let n := code c in
  ((Nat.leb 65 n) && (Nat.leb n 90)) || ((Nat.leb 192 n) && (Nat.leb n 222) && negb (Nat.eqb n 215)).

(** [str.islower] of a single character. *)
Definition is_lower_char (c : ascii) : bool :=
  let n := code c in
  ((Nat.leb 97 n) && (Nat.leb n 122)) || (Nat.eqb n 170) || (Nat.eqb n 181) || (Nat.eqb n 186)
  || ((Nat.leb 223 n) && (Nat.leb n 255) && negb (Nat.eqb n 247)).

(** [str.lower] of a single character below U+0100. Beyond Latin-1,
    [str.lower] maps some non-letters to ASCII letters (U+212A KELVIN SIGN
    to "k"); the model does not reach those characters. *)
Definition lower_char (c : ascii) : ascii :=
  if is_upper_char c then ascii_of_nat (code c + 32)%nat else c.

Definition is_digit (c : ascii) : bool :=
  let n := code c in (Nat.leb 48 n) && (Nat.leb n 57).

Definition is_ascii_letter (c : ascii) : bool :=
  let n := code c in ((Nat.leb 65 n) && (Nat.leb n 90)) || ((Nat.leb 97 n) && (Nat.leb n 122)).

(** ** Strings *)

Fixpoint lower (s : string) : string :=
  match s with
  | EmptyString => EmptyString
  | String c t => String (lower_char c) (lower t)
  end.

Fixpoint is_prefix (p s : string) : bool :=
  match p, s with
  | EmptyString, _ => true
  | String a p', String b s' => Ascii.eqb a b && is_prefix p' s'
  | String _ _, EmptyString => false
  end.

(** Python's [needle in hay] on strings. *)
Fixpoint contains (needle hay : string) : bool :=
  match hay with
  | EmptyString => is_prefix needle EmptyString
  | String _ t => is_prefix needle hay || contains needle t
  end.

(** [s.count(c)] for a one-character [c]. *)
Fixpoint count_char (c : ascii) (s : string) : nat :=
  match s with
  | EmptyString => 0
  | String x t => (if Ascii.eqb x c then 1 else 0) + count_char c t
  end.

(** [s.split()]: maximal runs of non-whitespace characters. *)
Fixpoint split_words_aux (s : string) (cur : string) : list string :=
  match s with
  | EmptyString => match cur with EmptyString => [] | _ => [cur] end
  | String c t =>
      if is_space c
      then match cur with
           | EmptyString => split_words_aux t EmptyString
           | _ => cur :: split_words_aux t EmptyString
           end
      else split_words_aux t (cur ++ String c EmptyString)
  end.

Definition split_words (s : string) : list string := split_words_aux s EmptyString.

(** [w.isupper()]: at least one cased character and no lower-case one. *)
Fixpoint has_upper (s : string) : bool :=
  match s with EmptyString => false | String c t => is_upper_char c || has_upper t end.
Fixpoint has_lower (s : string) : bool :=
  match s with EmptyString => false | String c t => is_lower_char c || has_lower t end.
Definition isupper (s : string) : bool := has_upper s && negb (has_lower s).

(** ** binary64 arithmetic *)

Module F64.
Local Open Scope Z_scope.
Definition prec : Z := 53.
Definition emax : Z := 1024.
Definition t := spec_float.
Definition of_Z (z : Z) : t := binary_normalize prec emax z 0 false.
Definition mul : t -> t -> t := SFmul prec emax.
Definition add : t -> t -> t := SFadd prec emax.
Definition sub : t -> t -> t := SFsub prec emax.
Definition div : t -> t -> t := SFdiv prec emax.
(** A decimal literal [n/d] is the binary64 nearest to [n/d], which is
    the correctly rounded quotient of the two (exact) integers. *)
Definition lit (n d : Z) : t := div (of_Z n) (of_Z d).
(** Exact rational value of a finite float (0 otherwise). *)
Definition val (x : t) : Q :=
  match x with
  | S754_finite s m e =>
      let n := if s then Zneg m else Zpos m in
      match e with
      | Zpos _ => inject_Z (n * 2 ^ e)
      | Z0 => inject_Z n
      | Zneg k => Qmake n (Pos.pow 2 k)
      end
  | _ => 0
  end.
(** [x >= y] / [x < y] between floats compare exact values (Python
    compares a float with an int exactly as well). *)
Definition geb (x y : t) : bool :=
  match SFcompare x y with Some Gt | Some Eq => true | _ => false end.
(** [int(x)]: truncation towards zero. *)
Definition trunc (x : t) : Z :=
  match x with
  | S754_finite s m e =>
      let a := match e with
               | Zneg k => Z.div (Zpos m) (Zpos (Pos.pow 2 k))
               | _ => Zpos m * 2 ^ e
               end in
      if s then - a else a
  | _ => 0
  end.
(** Round half to even of the exact value to an integer, the rounding
    used by [round(x, n)] and by the [.0f] format. *)
Definition round_half_even_Z (num : Z) (den : positive) : Z :=
  let q := Z.div num (Zpos den) in
  let r := Z.modulo num (Zpos den) in
  match Z.compare (2 * r) (Zpos den) with
  | Lt => q
  | Gt => q + 1
  | Eq => if Z.even q then q else q + 1
  end.
(** [round(x, nd)] on a float: the decimal with [nd] digits nearest to
    the exact value of [x] (ties to even), read back as a float. *)
Definition py_round (x : t) (nd : nat) : t :=
  match x with
  | S754_finite s m e =>
      let scale := 10 ^ Z.of_nat nd in
      let k :=
        match e with
        | Zneg k => round_half_even_Z (Zpos m * scale) (Pos.pow 2 k)
        | _ => Zpos m * 2 ^ e * scale
        end in
      let r := div (of_Z k) (of_Z scale) in
      if s then SFopp r else r
  | _ => x
  end.
(** Integer shown by [f"{x:.0f}"] for a finite non-negative [x]. *)
Definition round0 (x : t) : Z :=
  match x with
  | S754_finite s m e =>
      let a := match e with
               | Zneg k => round_half_even_Z (Zpos m) (Pos.pow 2 k)
               | _ => Zpos m * 2 ^ e
               end in
      if s then - a else a
  | _ => 0
  end.
End F64.

(** ** Regular expressions

    The fragment of Python's [re] syntax used by the registry.  [RRep p lo hi]
    is a repetition of one character class ([hi = None] is unbounded). *)

Inductive regex :=
| REmpty
| RChar (c : ascii)
| RClass (p : ascii -> bool)
| RSeq (r1 r2 : regex)
| RAlt (r1 r2 : regex)
| ROpt (r : regex)
| RRep (p : ascii -> bool) (lo : nat) (hi : option nat).

(** A literal string. *)
Fixpoint rlit (s : string) : regex :=
  match s with
  | EmptyString => REmpty
  | String c EmptyString => RChar c
  | String c t => RSeq (RChar c) (rlit t)
  end.

(** [(a|b|...)]. *)
Fixpoint ralt (rs : list regex) : regex :=
  match rs with
  | [] => REmpty
  | [r] => r
  | r :: rs' => RAlt r (ralt rs')
  end.

Definition rseq (rs : list regex) : regex := fold_right RSeq REmpty rs.

(** Character classes: [.] (anything but a newline), [\d], [[^\s]],
    [[a-z0-9-]]. *)
Definition cls_dot (c : ascii) : bool := negb (Nat.eqb (code c) 10).
Definition cls_nonspace (c : ascii) : bool := negb (is_space c).
Definition cls_alnum_dash (c : ascii) : bool :=
  let n := code c in
  (Nat.leb 97 n && Nat.leb n 122) || is_digit c || Nat.eqb n 45.

(** Greedy repetition of a class: one more iteration first, then stop. *)
Fixpoint rep_match {A} (p : ascii -> bool) (lo : nat) (hi : option nat)
    (s : string) (k : string -> option A) : option A :=
  let more :=
    match s with
    | EmptyString => None
    | String c t =>
        match hi with
        | Some 0 => None
        | _ => if p c then rep_match p (pred lo) (option_map pred hi) t k else None
        end
    end in
  match more with
  | Some x => Some x
  | None => if Nat.eqb lo 0 then k s else None
  end.

(** Backtracking matcher: [matcher r s k] runs the continuation [k] on the
    rest of the input after each way [r] matches a prefix of [s], in the
    order of Python's engine, and returns the first success. *)
Fixpoint matcher {A} (r : regex) (s : string) (k : string -> option A) : option A :=
  match r with
  | REmpty => k s
  | RChar c => match s with
               | String c' t => if Ascii.eqb c c' then k t else None
               | EmptyString => None
               end
  | RClass p => match s with
                | String c' t => if p c' then k t else None
                | EmptyString => None
                end
  | RSeq a b => matcher a s (fun s' => matcher b s' k)
  | RAlt a b => match matcher a s k with
                | Some x => Some x
                | None => matcher b s k
                end
  | ROpt a => match matcher a s k with
              | Some x => Some x
              | None => k s
              end
  | RRep p lo hi => rep_match p lo hi s k
  end.

(** [re.match(r, s)]: the rest of [s] after the first match at its start. *)
Definition match_prefix (r : regex) (s : string) : option string :=
  matcher r s (fun rest => Some rest).

(** [re.search(r, s) is not None]. *)
Fixpoint search (r : regex) (s : string) : bool :=
  match match_prefix r s with
  | Some _ => true
  | None => match s with EmptyString => false | String _ t => search r t end
  end.

(** [re.search(r, s, re.IGNORECASE)] for a pattern [r] written in lower
    case: on Latin-1 text a character matches a letter or the class
    [[a-z0-9-]] case-insensitively exactly when its lower-case form does. *)
Definition search_i (r : regex) (s : string) : bool := search r (lower s).

(** [re.findall(r, s)] for a pattern without groups that never matches the
    empty string: scan left to right, resume after each match.  [fuel]
    bounds the number of steps; each step consumes at least one character. *)
Fixpoint findall_fuel (fuel : nat) (r : regex) (s : string) : list string :=
  match fuel with
  | O => []
  | S f =>
      match s with
      | EmptyString => []
      | String _ t =>
          match match_prefix r s with
          | Some rest =>
              substring 0 (length s - length rest) s :: findall_fuel f r rest
          | None => findall_fuel f r t
          end
      end
  end.

Definition findall (r : regex) (s : string) : list string :=
  findall_fuel (S (length s)) r s.

(** ** Pattern registry *)

Open Scope char_scope.

Definition FRAUD_KEYWORDS : list (string * Z) :=
  [("urgent", 3%Z); ("verify", 2%Z); ("suspended", 3%Z); ("account", 2%Z);
   ("click", 2%Z); ("immediately", 3%Z); ("confirm", 2%Z); ("password", 3%Z);
   ("otp", 3%Z); ("pin", 3%Z); ("bank", 2%Z); ("credit card", 3%Z);
   ("social security", 4%Z); ("ssn", 4%Z); ("prize", 3%Z); ("winner", 3%Z);
   ("congratulations", 2%Z); ("claim", 2%Z); ("refund", 2%Z); ("tax", 2%Z);
   ("irs", 3%Z); ("government", 2%Z); ("lottery", 3%Z); ("inheritance", 3%Z);
   ("million", 3%Z); ("dollars", 2%Z); ("wire transfer", 4%Z); ("bitcoin", 3%Z);
   ("cryptocurrency", 3%Z); ("gift card", 4%Z); ("amazon", 2%Z); ("paypal", 2%Z);
   ("venmo", 2%Z); ("zelle", 2%Z); ("cashapp", 2%Z); ("limited time", 3%Z);
   ("act now", 3%Z); ("expires", 2%Z); ("final notice", 4%Z);
   ("legal action", 4%Z); ("arrest", 4%Z); ("warrant", 4%Z); ("debt", 2%Z);
   ("owed", 2%Z); ("payment", 2%Z); ("overdue", 3%Z)]%string.

(** [r'[a-z0-9-]+\.tk'] and the other free-domain patterns. *)
Definition free_domain (tld : string) : regex :=
  RSeq (RRep cls_alnum_dash 1 None) (rlit (String "." tld)).

Definition octet : regex := RRep is_digit 1 (Some 3).

Definition SUSPICIOUS_URL_PATTERNS : list regex :=
  [rlit "bit.ly"; rlit "tinyurl"; rlit "goo.gl"; rlit "t.co";
   rseq [octet; RChar "."; octet; RChar "."; octet; RChar "."; octet];
   free_domain "tk"; free_domain "ml"; free_domain "ga";
   free_domain "cf"; free_domain "gq"]%string.

Definition URGENCY_PATTERNS : list regex :=
  [rseq [rlit "within "; RRep is_digit 1 None; RChar " ";
         ralt [RSeq (rlit "hour") (ROpt (RChar "s"));
               RSeq (rlit "minute") (ROpt (RChar "s"));
               RSeq (rlit "day") (ROpt (RChar "s"))]];
   rseq [rlit "expire"; ROpt (RChar "s"); RChar " ";
         ralt [rlit "today"; rlit "tonight"; rlit "soon"]];
   RSeq (rlit "act ") (ralt [rlit "now"; rlit "immediately"; rlit "fast"]);
   rlit "limited time";
   rlit "hurry";
   RSeq (rlit "don't ") (ralt [rlit "wait"; rlit "delay"])]%string.

Definition SENSITIVE_INFO_PATTERNS : list regex :=
  [rseq [ralt [rlit "enter"; rlit "provide"; rlit "confirm"; rlit "verify"];
         RRep cls_dot 0 (Some 20);
         ralt [rlit "password"; rlit "pin"; rlit "otp"; rlit "ssn";
               rlit "social security"]];
   rseq [ralt [rlit "click"; rlit "tap"]; RRep cls_dot 0 (Some 30);
         ralt [rlit "link"; rlit "here"; rlit "below"]];
   rseq [rlit "reply"; RRep cls_dot 0 (Some 20); ralt [rlit "with"; rlit "your"];
         RRep cls_dot 0 (Some 20);
         ralt [rlit "password"; rlit "pin"; rlit "otp"; rlit "code"]]]%string.

Close Scope char_scope.

(** ** Detectors *)

Open Scope Z_scope.

Definition keyword_step (message_lower : string) (acc : Z * list string)
    (entry : string * Z) : Z * list string :=
  let '(score, matches) := acc in
  let '(keyword, weight) := entry in
  if contains keyword message_lower
  then (score + weight, (matches ++ [keyword])%list)
  else (score, matches).

(** [int((score / max_possible) * 100)] capped at 100. *)
Definition normalize_keyword_score (score : Z) : Z :=
  let max_possible := 50 in
  Z.min 100 (F64.trunc (F64.mul (F64.div (F64.of_Z score) (F64.of_Z max_possible))
                                (F64.of_Z 100))).

Definition analyze_keywords (message : string) : Z * list string :=
  let message_lower := lower message in
  let '(score, matches) := fold_left (keyword_step message_lower) FRAUD_KEYWORDS (0, []) in
  (normalize_keyword_score score, matches).

Definition url_pattern : regex :=
  rseq [rlit "http"; ROpt (RChar "s"%char); rlit "://"; RRep cls_nonspace 1 None].

(** Inner loop of [analyze_urls]: append [url] at the first matching pattern
    and [break]. *)
Fixpoint scan_url_patterns (patterns : list regex) (url : string)
    (suspicious_urls : list string) : list string :=
  match patterns with
  | [] => suspicious_urls
  | pattern :: rest =>
      if search_i pattern url then (suspicious_urls ++ [url])%list
      else scan_url_patterns rest url suspicious_urls
  end.

Definition analyze_urls (message : string) : Z * list string :=
  let urls := findall url_pattern message in
  let suspicious_urls :=
    fold_left (fun acc url => scan_url_patterns SUSPICIOUS_URL_PATTERNS url acc) urls [] in
  (Z.min 100 (Z.of_nat (List.length suspicious_urls) * 40), suspicious_urls).

Definition analyze_urgency (message : string) : Z :=
  let score := fold_left (fun score pattern =>
                 if search_i pattern message then score + 20 else score)
                 URGENCY_PATTERNS 0 in
  Z.min 100 score.

Definition analyze_sensitive_requests (message : string) : Z :=
  let score := fold_left (fun score pattern =>
                 if search_i pattern message then score + 30 else score)
                 SENSITIVE_INFO_PATTERNS 0 in
  Z.min 100 score.

(** The six checks of [simple_nlp_fraud_score]. *)
Definition check_exclamations (message : string) : bool :=
  (2 <=? count_char "!"%char message)%nat.
Definition caps_words (message : string) : list string :=
  filter (fun w => isupper w && (2 <? length w)%nat) (split_words message).
Definition check_caps (message : string) : bool := (2 <=? List.length (caps_words message))%nat.
Definition any_word (ws : list string) (message_lower : string) : bool :=
  existsb (fun word => contains word message_lower) ws.
Definition check_urgency_words (message : string) : bool :=
  any_word ["urgent"; "immediately"; "now"; "hurry"] (lower message).
Definition check_action_words (message : string) : bool :=
  any_word ["click"; "verify"; "confirm"; "update"] (lower message).
Definition check_threat_words (message : string) : bool :=
  any_word ["suspend"; "close"; "block"; "arrest"; "legal"] (lower message).
Definition check_financial_words (message : string) : bool :=
  any_word ["account"; "bank"; "payment"; "refund"; "prize"] (lower message).

Definition fraud_indicators (message : string) : Z :=
  fold_left (fun n (b : bool) => if b then n + 1 else n)
    [check_exclamations message; check_caps message; check_urgency_words message;
     check_action_words message; check_threat_words message;
     check_financial_words message] 0.

Definition total_checks : Z := 6.

(** [(fraud_indicators / total_checks) * 100]. *)
Definition nlp_score_of (k : Z) : F64.t :=
  F64.mul (F64.div (F64.of_Z k) (F64.of_Z total_checks)) (F64.of_Z 100).

Definition nlp_label_confidence (fraud_score : F64.t) : string * F64.t :=
  if F64.geb fraud_score (F64.of_Z 60) then
    ("fraud", F64.div fraud_score (F64.of_Z 100))
  else if F64.geb fraud_score (F64.of_Z 40) then
    ("suspicious",
     F64.add (F64.lit 5 10)
       (F64.mul (F64.div (F64.sub fraud_score (F64.of_Z 40)) (F64.of_Z 40))
                (F64.lit 3 10)))
  else
    ("safe", F64.sub (F64.of_Z 1) (F64.div fraud_score (F64.of_Z 100))).

Definition simple_nlp_fraud_score (message : string) : F64.t * string * F64.t :=
  let fraud_score := nlp_score_of (fraud_indicators message) in
  let '(label, confidence) := nlp_label_confidence fraud_score in
  (fraud_score, label, confidence).

(** ** Report *)

(** Decimal digits of a non-negative integer; [fuel] bounds the digit count. *)
Fixpoint digits_aux (fuel : nat) (z : Z) (acc : string) : string :=
  match fuel with
  | O => acc
  | S f =>
      let acc' := String (ascii_of_nat (48 + Z.to_nat (z mod 10))) acc in
      if z <? 10 then acc' else digits_aux f (z / 10) acc'
  end.

(** [str(z)] for an integer. *)
Definition str_of_Z (z : Z) : string :=
  if z <? 0 then "-" ++ digits_aux (S (Z.to_nat (Z.log2 (- z)))) (- z) ""
  else digits_aux (S (Z.to_nat (Z.log2 z))) z "".

Record NlpDetails := {
  nlp_fraud_score : F64.t;
  nlp_label : string;
  nlp_confidence : F64.t
}.

Record Details := {
  nlp : NlpDetails;
  keywords_score : Z;
  keywords_matches : list string;
  urls_score : Z;
  urls_suspicious_urls : list string;
  urgency_score : Z;
  sensitive_info_score : Z
}.

Record FraudReport := {
  classification : string;
  risk_score : Z;
  explanations : list string;
  details : Details
}.

(** The weighted average of [detect_fraud], evaluated left to right. *)
Definition fuse (nlp_score : F64.t) (keyword_score url_score urgency_score sensitive_score : Z) : Z :=
  F64.trunc
    (F64.add
      (F64.add
        (F64.add
          (F64.add (F64.mul nlp_score (F64.lit 4 10))
                   (F64.mul (F64.of_Z keyword_score) (F64.lit 25 100)))
          (F64.mul (F64.of_Z url_score) (F64.lit 2 10)))
        (F64.mul (F64.of_Z urgency_score) (F64.lit 1 10)))
      (F64.mul (F64.of_Z sensitive_score) (F64.lit 5 100))).

Definition classify (risk_score : Z) : string :=
  if 50 <=? risk_score then "fraud" else "safe".

Definition FALLBACK : string := "No significant fraud indicators detected".

(** The explanation list, built by successive appends as in the source. *)
Definition build_explanations (nlp_score : F64.t) (keyword_matches suspicious_urls : list string)
    (urgency_score sensitive_score : Z) : list string :=
  let explanations := @nil string in
  let explanations :=
    if F64.geb nlp_score (F64.of_Z 60)
    then app explanations ["AI detected high fraud probability ("
                           ++ str_of_Z (F64.round0 nlp_score) ++ "%)"]
    else explanations in
  let explanations :=
    match keyword_matches with
    | [] => explanations
    | _ => let top_keywords := firstn 3 keyword_matches in
           app explanations ["Contains fraud keywords: " ++ concat ", " top_keywords]
    end in
  let explanations :=
    match suspicious_urls with
    | [] => explanations
    | _ => app explanations ["Contains " ++ str_of_Z (Z.of_nat (List.length suspicious_urls))
                             ++ " suspicious URL(s)"]
    end in
  let explanations :=
    if 40 <=? urgency_score
    then app explanations ["Uses urgent/pressure language"] else explanations in
  let explanations :=
    if 30 <=? sensitive_score
    then app explanations ["Requests sensitive information"] else explanations in
  match explanations with
  | [] => [FALLBACK]
  | _ => explanations
  end.

Definition detect_fraud (message : string) : FraudReport :=
  let '(keyword_score, keyword_matches) := analyze_keywords message in
  let '(url_score, suspicious_urls) := analyze_urls message in
  let urgency_score := analyze_urgency message in
  let sensitive_score := analyze_sensitive_requests message in
  let '(nlp_score, nlp_label, nlp_confidence) := simple_nlp_fraud_score message in
  let risk_score := fuse nlp_score keyword_score url_score urgency_score sensitive_score in
  {| classification := classify risk_score;
     risk_score := risk_score;
     explanations := build_explanations nlp_score keyword_matches suspicious_urls
                       urgency_score sensitive_score;
     details := {| nlp := {| nlp_fraud_score := F64.py_round nlp_score 1;
                             nlp_label := nlp_label;
                             nlp_confidence := F64.py_round nlp_confidence 2 |};
                   keywords_score := keyword_score;
                   keywords_matches := firstn 5 keyword_matches;
                   urls_score := url_score;
                   urls_suspicious_urls := suspicious_urls;
                   urgency_score := urgency_score;
                   sensitive_info_score := sensitive_score |} |}.

(** ** Views of the intermediate results *)

Definition style_score (message : string) : F64.t :=
  fst (fst (simple_nlp_fraud_score message)).
Definition style_label (message : string) : string :=
  snd (fst (simple_nlp_fraud_score message)).
Definition style_confidence (message : string) : F64.t :=
  snd (simple_nlp_fraud_score message).
Definition keyword_score (message : string) : Z := fst (analyze_keywords message).
Definition keyword_matches (message : string) : list string := snd (analyze_keywords message).
Definition url_score (message : string) : Z := fst (analyze_urls message).
Definition suspicious_urls (message : string) : list string := snd (analyze_urls message).

(** Raw weight sum of the keyword detector, before normalisation. *)
Definition raw_keyword_score (message : string) : Z :=
  fst (fold_left (keyword_step (lower message)) FRAUD_KEYWORDS (0, [])).

(** ** Specification-side definitions *)

(** The fusion formula of the spec, over exact rationals. *)
Definition risk_formula (style : Q) (keyword url urgency sensitive : Z) : Z :=
  Qfloor (style * (40 # 100) + inject_Z keyword * (25 # 100) + inject_Z url * (20 # 100)
          + inject_Z urgency * (10 # 100) + inject_Z sensitive * (5 # 100)).

(** A URL is suspicious when at least one registry pattern matches it. *)
Definition is_suspicious_url (url : string) : bool :=
  existsb (fun pattern => search_i pattern url) SUSPICIOUS_URL_PATTERNS.

Definition is_empty {A} (l : list A) : bool :=
  match l with [] => true | _ => false end.

(** The explanation list as the spec describes it: guarded entries in a
    fixed priority order, every entry whose guard holds, and the fallback
    alone when none holds. *)
Definition explanations_spec (nlp_score : F64.t) (keyword_matches suspicious_urls : list string)
    (urgency_score sensitive_score : Z) : list string :=
  let guarded :=
    [(F64.geb nlp_score (F64.of_Z 60),
      "AI detected high fraud probability (" ++ str_of_Z (F64.round0 nlp_score) ++ "%)");
     (negb (is_empty keyword_matches),
      "Contains fraud keywords: " ++ concat ", " (firstn 3 keyword_matches));
     (negb (is_empty suspicious_urls),
      "Contains " ++ str_of_Z (Z.of_nat (List.length suspicious_urls)) ++ " suspicious URL(s)");
     (40 <=? urgency_score, "Uses urgent/pressure language");
     (30 <=? sensitive_score, "Requests sensitive information")] in
  let fired := flat_map (fun '(guard, text) => if guard : bool then [text] else []) guarded in
  if is_empty fired then [FALLBACK] else fired.

(** A word that is entirely upper case: it has an upper-case letter and no
    lower-case one. *)
Definition entirely_upper (w : string) : Prop :=
  (exists c, In c (list_ascii_of_string w) /\ is_upper_char c = true) /\
  (forall c, In c (list_ascii_of_string w) -> is_lower_char c = false).

(** A well-formed report. *)
Definition well_formed (r : FraudReport) : Prop :=
  (classification r = "fraud" \/ classification r = "safe") /\
  0 <= risk_score r <= 100 /\
  explanations r <> [] /\
  0 <= keywords_score (details r) <= 100 /\
  0 <= urls_score (details r) <= 100 /\
  0 <= urgency_score (details r) <= 100 /\
  0 <= sensitive_info_score (details r) <= 100.

(** ** Finite ranges of the detector outputs *)

Definition zrange (n : nat) : list Z := map Z.of_nat (seq 0 n).

Definition style_domain : list F64.t := map nlp_score_of (zrange 7).
Definition keyword_domain : list Z := nodup Z.eq_dec (map normalize_keyword_score (zrange 127)).
Definition url_domain : list Z := [0; 40; 80; 100].
Definition urgency_domain : list Z := map (fun j => Z.min 100 (0 + 20 * j)) (zrange 7).
Definition sensitive_domain : list Z := map (fun j => Z.min 100 (0 + 30 * j)) (zrange 4).

(** [forall_staged] checks [f5 (f4 (f3 (f2 (f1 a) b) c) d) e] on every
    combination of the five domains, computing each stage once. *)
Definition forall_staged {A B C D E S1 S2 S3 S4 : Type}
    (D1 : list A) (D2 : list B) (D3 : list C) (D4 : list D) (D5 : list E)
    (f1 : A -> S1) (f2 : S1 -> B -> S2) (f3 : S2 -> C -> S3) (f4 : S3 -> D -> S4)
    (f5 : S4 -> E -> bool) : bool :=
  forallb (fun a => let s1 := f1 a in
    forallb (fun b => let s2 := f2 s1 b in
      forallb (fun c => let s3 := f3 s2 c in
        forallb (fun d => let s4 := f4 s3 d in
          forallb (fun e => f5 s4 e) D5) D4) D3) D2) D1.

(** The weights of the fusion, as binary64 values. *)
Definition w_style : F64.t := Eval vm_compute in F64.lit 4 10.
Definition w_keyword : F64.t := Eval vm_compute in F64.lit 25 100.
Definition w_url : F64.t := Eval vm_compute in F64.lit 2 10.
Definition w_urgency : F64.t := Eval vm_compute in F64.lit 1 10.
Definition w_sensitive : F64.t := Eval vm_compute in F64.lit 5 100.

(** Partial sums of the fusion, in binary64 and exactly. *)
Definition fstage1 (n : F64.t) : F64.t * Q := (F64.mul n w_style, (F64.val n * (40 # 100))%Q).
Definition fstage2 (p : F64.t * Q) (k : Z) : F64.t * Q :=
  (F64.add (fst p) (F64.mul (F64.of_Z k) w_keyword), (snd p + inject_Z k * (25 # 100))%Q).
Definition fstage3 (p : F64.t * Q) (u : Z) : F64.t * Q :=
  (F64.add (fst p) (F64.mul (F64.of_Z u) w_url), (snd p + inject_Z u * (20 # 100))%Q).
Definition fstage4 (p : F64.t * Q) (g : Z) : F64.t * Q :=
  (F64.add (fst p) (F64.mul (F64.of_Z g) w_urgency), (snd p + inject_Z g * (10 # 100))%Q).
Definition fstage5 (p : F64.t * Q) (s : Z) : bool :=
  let r := F64.trunc (F64.add (fst p) (F64.mul (F64.of_Z s) w_sensitive)) in
  Z.eqb r (Qfloor (snd p + inject_Z s * (5 # 100))) && (0 <=? r) && (r <=? 100).

(** Style score and confidence bounds, per number of indicators. *)
Definition confidence_ok (k : Z) : bool :=
  let fraud_score := nlp_score_of k in
  let '(label, confidence) := nlp_label_confidence fraud_score in
  let c := F64.val confidence in
  Qle_bool 0 (F64.val fraud_score) && Qle_bool (F64.val fraud_score) 100 &&
  Qle_bool (1 # 2) c && Qle_bool c 1 &&
  (if String.eqb label "fraud" then Qle_bool (3 # 5) c
   else if String.eqb label "suspicious" then negb (Qle_bool (13 # 20) c)
   else String.eqb label "safe" && negb (Qle_bool c (3 # 5))).

(** Keyword-table facts used for the presence argument. *)
Definition keyword_names : list string := map fst FRAUD_KEYWORDS.

Fixpoint crosses (n : string) (c : ascii) (k : string) : bool :=
  match n with
  | EmptyString => false
  | String x n' => (Ascii.eqb x c && is_prefix n' k) || crosses n' c k
  end.

(** ** Sample messages *)

Definition scenario2_message : string :=
  "URGENT! Verify your account now by clicking this link: http://bit.ly/xyz".

Definition three_urls_message : string :=
  "Pay now http://bit.ly/a or http://10.0.0.1/b or https://free.tk/c".

Definition elliot_message : string := "Send your pin to Elliot".

(** ** The HTTP endpoint [/detect] *)

(** The request body as parsed by [request.get_json()]: a JSON value.  An
    object is the list of its entries, with distinct keys, as the Python
    [dict] that [json] builds.  (When the body is not JSON, [get_json]
    itself raises; that path is Flask's and is not modelled.) *)
Inductive json :=
| JNull
| JBool (b : bool)
| JNum (q : Q)
| JStr (s : string)
| JArr (items : list json)
| JObj (entries : list (string * json)).

(** Python truthiness: [None], [False], zero and empty containers are
    false. *)
Definition truthy (v : json) : bool :=
  match v with
  | JNull => false
  | JBool b => b
  | JNum q => negb (Qeq_bool q 0)
  | JStr s => negb (String.eqb s "")
  | JArr items => negb (is_empty items)
  | JObj entries => negb (is_empty entries)
  end.

(** The exceptions the handler can meet. [BadRequest] stands for the HTTP
    errors [request.get_json()] raises on a body that is malformed or not
    JSON (werkzeug's BadRequest, or UnsupportedMediaType in recent Flask). *)
Inductive py_exn := TypeError | AttributeError | BadRequest.

Definition is_json_str (v : json) (s : string) : bool :=
  match v with JStr t => String.eqb t s | _ => false end.

(** [key in v] for a string [key]: a key of a [dict], an element of a
    [list] equal to it, a substring of a [str]; [TypeError] for a number or
    a boolean ([None] never reaches it in the handler). *)
Definition py_contains (key : string) (v : json) : py_exn + bool :=
  match v with
  | JObj entries => inr (existsb (fun e => String.eqb (fst e) key) entries)
  | JArr items => inr (existsb (fun x => is_json_str x key) items)
  | JStr s => inr (contains key s)
  | _ => inl TypeError
  end.

Fixpoint json_lookup (key : string) (entries : list (string * json)) : option json :=
  match entries with
  | [] => None
  | (k, v) :: rest => if String.eqb k key then Some v else json_lookup key rest
  end.

(** [v[key]] for a string [key]: a [dict] lookup; [TypeError] on a [list]
    or a [str] (their indices are integers). *)
Definition py_getitem (v : json) (key : string) : py_exn + json :=
  match v with
  | JObj entries =>
      match json_lookup key entries with Some x => inr x | None => inl TypeError end
  | _ => inl TypeError
  end.

(** [s.strip()]: leading and trailing whitespace removed. *)
Fixpoint lstrip (s : string) : string :=
  match s with
  | EmptyString => EmptyString
  | String c t => if is_space c then lstrip t else s
  end.
Fixpoint rstrip (s : string) : string :=
  match s with
  | EmptyString => EmptyString
  | String c t =>
      match rstrip t with
      | EmptyString => if is_space c then EmptyString else String c EmptyString
      | t' => String c t'
      end
  end.
Definition strip (s : string) : string := rstrip (lstrip s).

(** [message.strip()] on any JSON value: only a [str] has the method. *)
Definition py_strip (v : json) : py_exn + string :=
  match v with JStr s => inr (strip s) | _ => inl AttributeError end.

(** The JSON body of the response. *)
Inductive response_body :=
| ErrorMessage (error : string)
| InternalError (e : py_exn)
| Report (r : FraudReport).

Record response := { status : Z; body : response_body }.

Definition bad_request (msg : string) : response :=
  {| status := 400; body := ErrorMessage msg |}.

(** The [try] block of [detect]; an exception becomes status 500 with
    ["Internal server error: " + str(e)], represented by the exception. *)
Definition detect_body (data : json) : py_exn + response :=
  let missing := bad_request "Missing 'message' field in request" in
  if negb (truthy data) then inr missing else
  match py_contains "message" data with
  | inl e => inl e
  | inr false => inr missing
  | inr true =>
      match py_getitem data "message" with
      | inl e => inl e
      | inr message =>
          if negb (truthy message) then inr (bad_request "Message cannot be empty") else
          match py_strip message with
          | inl e => inl e
          | inr stripped =>
              if String.eqb stripped "" then inr (bad_request "Message cannot be empty")
              else match message with
                   | JStr m => inr {| status := 200; body := Report (detect_fraud m) |}
                   | _ => inl AttributeError
                   end
          end
      end
  end.

Definition detect (data : json) : response :=
  match detect_body data with
  | inr r => r
  | inl e => {| status := 500; body := InternalError e |}
  end.

(** The whole handler, [request.get_json()] included: it runs inside the
    [try], so the exception it raises is answered like the others. Its
    outcome is given as the exception or the parsed body (an old Flask that
    returns [None] for a non-JSON body gives [inr JNull]). *)
Definition detect_request (parsed : py_exn + json) : response :=
  match (match parsed with
         | inl e => inl e
         | inr data => detect_body data
         end) with
  | inr r => r
  | inl e => {| status := 500; body := InternalError e |}
  end.

(** ** Regex languages *)

(** The strings a pattern matches, for the soundness of the matcher. *)
Inductive lang : regex -> string -> Prop :=
| LEmpty : lang REmpty EmptyString
| LChar (c : ascii) : lang (RChar c) (String c EmptyString)
| LClass (p : ascii -> bool) (c : ascii) : p c = true -> lang (RClass p) (String c EmptyString)
| LSeq (a b : regex) (u v : string) : lang a u -> lang b v -> lang (RSeq a b) (u ++ v)
| LAltL (a b : regex) (u : string) : lang a u -> lang (RAlt a b) u
| LAltR (a b : regex) (u : string) : lang b u -> lang (RAlt a b) u
| LOptSome (a : regex) (u : string) : lang a u -> lang (ROpt a) u
| LOptNone (a : regex) : lang (ROpt a) EmptyString
| LRep (p : ascii -> bool) (lo : nat) (hi : option nat) (u : string) :
    (forall c, In c (list_ascii_of_string u) -> p c = true) ->
    (lo <= String.length u)%nat ->
    match hi with Some h => (String.length u <= h)%nat | None => True end ->
    lang (RRep p lo hi) u.

(** Sum of the weights of a list of keyword entries. *)
Definition weight_sum (l : list (string * Z)) : Z := fold_right (fun e t => snd e + t) 0 l.

(** Keyword-score normalisation, checked on every raw sum. *)
Definition keyword_norm_ok (s : Z) : bool :=
  Z.eqb (normalize_keyword_score s) (if Z.eqb s 29 then 57 else Z.min 100 (2 * s)).

(** Style label and reported score per number of indicators. *)
Definition label_of_count (k : Z) : string :=
  if 4 <=? k then "fraud" else if k =? 3 then "suspicious" else "safe".

Definition style_table_ok (k : Z) : bool :=
  String.eqb (fst (nlp_label_confidence (nlp_score_of k))) (label_of_count k) &&
  Bool.eqb (F64.geb (nlp_score_of k) (F64.of_Z 60)) (4 <=? k).

(** The percentage shown in the high-style-score explanation. *)
Definition ai_percent (k : Z) : string := str_of_Z (F64.round0 (nlp_score_of k)).

Definition ai_explanation (k : Z) : string :=
  "AI detected high fraud probability (" ++ ai_percent k ++ "%)".

(** A message whose keyword weights add up to 29. *)
Definition raw29_message : string :=
  "urgent suspended immediately password otp pin prize winner irs bank".

(** The three non-200 answers of the endpoint. *)
Definition missing_field : response := bad_request "Missing 'message' field in request".
Definition empty_message : response := bad_request "Message cannot be empty".
Definition server_error (e : py_exn) : response := {| status := 500; body := InternalError e |}.

(** * Proofs *)

(** ** Counting folds and finite ranges *)

Lemma fold_count {A} (f : A -> bool) (d : Z) (l : list A) (s0 : Z) :
  fold_left (fun s x => if f x then s + d else s) l s0
  = s0 + d * Z.of_nat (List.length (filter f l)).
Proof.
  revert s0; induction l as [|x l IH]; intros s0; simpl.
  - lia.
  - destruct (f x); rewrite IH; simpl List.length; lia.
Qed.

Lemma in_zrange (z : Z) (n : nat) : 0 <= z < Z.of_nat n -> In z (zrange n).
Proof.
  intros H. unfold zrange. apply in_map_iff. exists (Z.to_nat z).
  split; [lia | apply in_seq; lia].
Qed.

Lemma urgency_in_domain (m : string) : In (analyze_urgency m) urgency_domain.
Proof.
  unfold analyze_urgency, urgency_domain.
  pose proof (fold_count (fun p => search_i p m) 20 URGENCY_PATTERNS 0) as E.
  cbv beta in E. rewrite E.
  pose proof (filter_length_le (fun p => search_i p m) URGENCY_PATTERNS) as L.
  apply in_map_iff. eexists; split; [reflexivity|].
  apply in_zrange. change (List.length URGENCY_PATTERNS) with 6%nat in L. lia.
Qed.

Lemma sensitive_in_domain (m : string) : In (analyze_sensitive_requests m) sensitive_domain.
Proof.
  unfold analyze_sensitive_requests, sensitive_domain.
  pose proof (fold_count (fun p => search_i p m) 30 SENSITIVE_INFO_PATTERNS 0) as E.
  cbv beta in E. rewrite E.
  pose proof (filter_length_le (fun p => search_i p m) SENSITIVE_INFO_PATTERNS) as L.
  apply in_map_iff. eexists; split; [reflexivity|].
  apply in_zrange. change (List.length SENSITIVE_INFO_PATTERNS) with 3%nat in L. lia.
Qed.

Lemma url_score_cap_in_domain (n : nat) : In (Z.min 100 (Z.of_nat n * 40)) url_domain.
Proof.
  unfold url_domain.
  destruct n as [|[|[|n]]]; simpl; auto.
  right; right; right; left. lia.
Qed.

Lemma url_in_domain (m : string) : In (url_score m) url_domain.
Proof. unfold url_score, analyze_urls. simpl. apply url_score_cap_in_domain. Qed.

Lemma keyword_fold_range (ml : string) (l : list (string * Z)) (s : Z) (ms : list string) :
  Forall (fun e => 0 <= snd e) l ->
  s <= fst (fold_left (keyword_step ml) l (s, ms))
    <= s + fold_right (fun e t => snd e + t) 0 l.
Proof.
  revert s ms; induction l as [|[kw w] l IH]; intros s ms HF; simpl.
  - lia.
  - inversion HF as [|? ? Hw Hl]; subst. simpl in Hw.
    destruct (contains kw ml) eqn:E.
    + replace (keyword_step ml (s, ms) (kw, w)) with (s + w, (ms ++ [kw])%list)
        by (unfold keyword_step; rewrite E; reflexivity).
      specialize (IH (s + w) (ms ++ [kw])%list Hl). lia.
    + replace (keyword_step ml (s, ms) (kw, w)) with (s, ms)
        by (unfold keyword_step; rewrite E; reflexivity).
      specialize (IH s ms Hl). lia.
Qed.

Lemma raw_keyword_score_range (m : string) : 0 <= raw_keyword_score m <= 126.
Proof.
  unfold raw_keyword_score.
  assert (HF : Forall (fun e => 0 <= snd e) FRAUD_KEYWORDS)
    by (repeat constructor; simpl; lia).
  pose proof (keyword_fold_range (lower m) FRAUD_KEYWORDS 0 [] HF) as H.
  vm_compute (fold_right _ _ FRAUD_KEYWORDS) in H. lia.
Qed.

Lemma keyword_score_raw (m : string) :
  keyword_score m = normalize_keyword_score (raw_keyword_score m).
Proof.
  unfold keyword_score, analyze_keywords, raw_keyword_score.
  destruct (fold_left _ FRAUD_KEYWORDS _) as [s ms]. reflexivity.
Qed.

Lemma keyword_in_domain (m : string) : In (keyword_score m) keyword_domain.
Proof.
  rewrite keyword_score_raw. unfold keyword_domain.
  apply (proj2 (nodup_In Z.eq_dec _ _)). apply in_map. apply in_zrange.
  pose proof (raw_keyword_score_range m). simpl. lia.
Qed.

Lemma fraud_indicators_range (m : string) : 0 <= fraud_indicators m <= 6.
Proof.
  unfold fraud_indicators.
  destruct (check_exclamations m), (check_caps m), (check_urgency_words m),
    (check_action_words m), (check_threat_words m), (check_financial_words m);
    simpl; lia.
Qed.

Lemma simple_nlp_fraud_score_eq (m : string) :
  simple_nlp_fraud_score m =
  (nlp_score_of (fraud_indicators m),
   fst (nlp_label_confidence (nlp_score_of (fraud_indicators m))),
   snd (nlp_label_confidence (nlp_score_of (fraud_indicators m)))).
Proof.
  unfold simple_nlp_fraud_score.
  destruct (nlp_label_confidence _). reflexivity.
Qed.

Lemma style_in_domain (m : string) : In (style_score m) style_domain.
Proof.
  unfold style_score. rewrite simple_nlp_fraud_score_eq. cbn [fst].
  unfold style_domain. apply in_map. apply in_zrange.
  pose proof (fraud_indicators_range m). simpl. lia.
Qed.

(** ** The report in terms of the detectors *)

Lemma detect_fraud_fields (m : string) :
  risk_score (detect_fraud m)
    = fuse (style_score m) (keyword_score m) (url_score m)
           (analyze_urgency m) (analyze_sensitive_requests m) /\
  classification (detect_fraud m) = classify (risk_score (detect_fraud m)) /\
  explanations (detect_fraud m)
    = build_explanations (style_score m) (keyword_matches m) (suspicious_urls m)
                         (analyze_urgency m) (analyze_sensitive_requests m) /\
  keywords_score (details (detect_fraud m)) = keyword_score m /\
  urls_score (details (detect_fraud m)) = url_score m /\
  urgency_score (details (detect_fraud m)) = analyze_urgency m /\
  sensitive_info_score (details (detect_fraud m)) = analyze_sensitive_requests m.
Proof.
  unfold detect_fraud, style_score, keyword_score, keyword_matches, url_score,
    suspicious_urls.
  destruct (analyze_keywords m) as [k km].
  destruct (analyze_urls m) as [u us].
  destruct (simple_nlp_fraud_score m) as [[s l] c].
  repeat split.
Qed.

(** ** Fusion over all detector outputs *)

(** Every combination of detector outputs: the fused score of the source
    equals the floor of the exact formula and lies in [0, 100]. *)
Lemma fusion_table_true :
  forall_staged style_domain keyword_domain url_domain urgency_domain sensitive_domain
    fstage1 fstage2 fstage3 fstage4 fstage5 = true.
Proof. vm_compute. reflexivity. Qed.

Lemma forall_staged_spec {A B C D E S1 S2 S3 S4 : Type}
    (D1 : list A) (D2 : list B) (D3 : list C) (D4 : list D) (D5 : list E)
    (f1 : A -> S1) (f2 : S1 -> B -> S2) (f3 : S2 -> C -> S3) (f4 : S3 -> D -> S4)
    (f5 : S4 -> E -> bool) :
  forall_staged D1 D2 D3 D4 D5 f1 f2 f3 f4 f5 = true ->
  forall a b c d e, In a D1 -> In b D2 -> In c D3 -> In d D4 -> In e D5 ->
  f5 (f4 (f3 (f2 (f1 a) b) c) d) e = true.
Proof.
  unfold forall_staged. intros H a b c d e Ha Hb Hc Hd He.
  rewrite forallb_forall in H. specialize (H a Ha).
  rewrite forallb_forall in H. specialize (H b Hb).
  rewrite forallb_forall in H. specialize (H c Hc).
  rewrite forallb_forall in H. specialize (H d Hd).
  rewrite forallb_forall in H. exact (H e He).
Qed.

Lemma weights_eq :
  F64.lit 4 10 = w_style /\ F64.lit 25 100 = w_keyword /\ F64.lit 2 10 = w_url /\
  F64.lit 1 10 = w_urgency /\ F64.lit 5 100 = w_sensitive.
Proof. repeat (refine (conj _ _)); vm_compute; reflexivity. Qed.

Lemma fusion_facts (n : F64.t) (k u g s : Z) :
  In n style_domain -> In k keyword_domain -> In u url_domain ->
  In g urgency_domain -> In s sensitive_domain ->
  fuse n k u g s = risk_formula (F64.val n) k u g s /\ 0 <= fuse n k u g s <= 100.
Proof.
  intros Hn Hk Hu Hg Hs.
  pose proof (forall_staged_spec _ _ _ _ _ _ _ _ _ _ fusion_table_true n k u g s
                Hn Hk Hu Hg Hs) as T.
  unfold fstage5, fstage4, fstage3, fstage2, fstage1 in T. cbn [fst snd] in T.
  apply andb_prop in T as [T Hhi]. apply andb_prop in T as [Heq Hlo].
  destruct weights_eq as (E1 & E2 & E3 & E4 & E5).
  unfold fuse, risk_formula. rewrite E1, E2, E3, E4, E5.
  apply Z.eqb_eq in Heq. apply Z.leb_le in Hlo. apply Z.leb_le in Hhi.
  split; [exact Heq | split; assumption].
Qed.

Lemma detect_fraud_risk (m : string) :
  risk_score (detect_fraud m)
    = risk_formula (F64.val (style_score m)) (keyword_score m) (url_score m)
                   (analyze_urgency m) (analyze_sensitive_requests m) /\
  0 <= risk_score (detect_fraud m) <= 100.
Proof.
  destruct (detect_fraud_fields m) as [-> _].
  apply fusion_facts; auto using style_in_domain, keyword_in_domain, url_in_domain,
    urgency_in_domain, sensitive_in_domain.
Qed.

Lemma classify_cases (r : Z) :
  (classify r = "fraud" <-> 50 <= r) /\ (classify r = "safe" <-> r < 50).
Proof.
  unfold classify. destruct (Z.leb_spec 50 r); split; split; intros H';
    try discriminate; try reflexivity; lia.
Qed.

(** [C1] For every message the fused risk score is the floor of
    [style*0.40 + keyword*0.25 + url*0.20 + urgency*0.10 + sensitive*0.05]
    computed exactly, and the classification is "fraud" exactly when it is at
    least 50, "safe" otherwise.  On the sub-scores 50, 18, 40, 0, 30 the
    fused score is 34 and the classification "safe". *)
Theorem risk_score_is_floor_of_weighted_sum :
  (forall m : string,
     let r := detect_fraud m in
     risk_score r
       = risk_formula (F64.val (style_score m)) (keyword_score m) (url_score m)
                      (analyze_urgency m) (analyze_sensitive_requests m) /\
     (classification r = "fraud" <-> 50 <= risk_score r) /\
     (classification r = "safe" <-> risk_score r < 50)) /\
  nlp_score_of 3 = F64.of_Z 50 /\
  fuse (F64.of_Z 50) 18 40 0 30 = 34 /\
  risk_formula (inject_Z 50) 18 40 0 30 = 34 /\
  classify 34 = "safe".
Proof.
  refine (conj _ (conj _ (conj _ (conj _ _))));
    [|vm_compute; reflexivity ..].
  intros m r. subst r.
  destruct (detect_fraud_fields m) as [_ [Hc _]].
  destruct (detect_fraud_risk m) as [Hr _].
  rewrite Hc. split; [exact Hr | apply classify_cases].
Qed.

(** ** Bounds of every sub-score *)

Lemma domains_bounded :
  forallb (fun v => (0 <=? v) && (v <=? 100))
    (keyword_domain ++ url_domain ++ urgency_domain ++ sensitive_domain) = true /\
  forallb (fun n => Qle_bool 0 (F64.val n) && Qle_bool (F64.val n) 100) style_domain = true.
Proof. split; vm_compute; reflexivity. Qed.

Lemma in_bounded (v : Z) (l : list Z) :
  forallb (fun v => (0 <=? v) && (v <=? 100)) l = true -> In v l -> 0 <= v <= 100.
Proof.
  intros H Hin. rewrite forallb_forall in H. specialize (H v Hin).
  apply andb_prop in H as [H1 H2]. apply Z.leb_le in H1, H2. lia.
Qed.

Lemma subscores_bounded (m : string) :
  (0 <= F64.val (style_score m) <= 100)%Q /\
  0 <= keyword_score m <= 100 /\
  0 <= url_score m <= 100 /\
  0 <= analyze_urgency m <= 100 /\
  0 <= analyze_sensitive_requests m <= 100.
Proof.
  destruct domains_bounded as [Hz Hq].
  pose proof (keyword_in_domain m) as Ik. pose proof (url_in_domain m) as Iu.
  pose proof (urgency_in_domain m) as Ig. pose proof (sensitive_in_domain m) as Is.
  refine (conj _ (conj _ (conj _ (conj _ _)))).
  - rewrite forallb_forall in Hq.
    specialize (Hq _ (style_in_domain m)). apply andb_prop in Hq as [Q1 Q2].
    apply Qle_bool_iff in Q1, Q2. split; assumption.
  - apply (in_bounded _ _ Hz). apply in_or_app. left. exact Ik.
  - apply (in_bounded _ _ Hz). apply in_or_app. right.
    apply in_or_app. left. exact Iu.
  - apply (in_bounded _ _ Hz). apply in_or_app. right.
    apply in_or_app. right. apply in_or_app. left. exact Ig.
  - apply (in_bounded _ _ Hz). apply in_or_app. right.
    apply in_or_app. right. apply in_or_app. right. exact Is.
Qed.

Lemma classify_values (r : Z) : classify r = "fraud" \/ classify r = "safe".
Proof. unfold classify. destruct (50 <=? r); [left | right]; reflexivity. Qed.

Lemma report_bounds (m : string) :
  (0 <= F64.val (style_score m) <= 100)%Q /\
  0 <= keyword_score m <= 100 /\
  0 <= url_score m <= 100 /\
  0 <= analyze_urgency m <= 100 /\
  0 <= analyze_sensitive_requests m <= 100 /\
  0 <= risk_score (detect_fraud m) <= 100 /\
  (classification (detect_fraud m) = "fraud" \/ classification (detect_fraud m) = "safe").
Proof.
  destruct (subscores_bounded m) as (B1 & B2 & B3 & B4 & B5).
  destruct (detect_fraud_risk m) as [_ Br].
  destruct (detect_fraud_fields m) as [_ [Hc _]].
  refine (conj B1 (conj B2 (conj B3 (conj B4 (conj B5 (conj Br _)))))).
  rewrite Hc. apply classify_values.
Qed.

(** [C2] For every message, the style score, the keyword, URL, urgency and
    sensitive-information scores and the fused risk score all lie in
    [0, 100], and the classification is one of the two distinct values
    "fraud" and "safe". *)
Theorem scores_bounded_and_classification_binary :
  forall m : string,
    let r := detect_fraud m in
    (0 <= F64.val (style_score m) <= 100)%Q /\
    0 <= keyword_score m <= 100 /\
    0 <= url_score m <= 100 /\
    0 <= analyze_urgency m <= 100 /\
    0 <= analyze_sensitive_requests m <= 100 /\
    0 <= risk_score r <= 100 /\
    (classification r = "fraud" \/ classification r = "safe") /\
    "fraud" <> "safe".
Proof.
  intros m r. subst r.
  destruct (report_bounds m) as (B1 & B2 & B3 & B4 & B5 & Br & Hc).
  refine (conj B1 (conj B2 (conj B3 (conj B4 (conj B5 (conj Br (conj Hc _))))))).
  discriminate.
Qed.

(** ** Explanations *)

Lemma build_explanations_spec (n : F64.t) (km us : list string) (g s : Z) :
  build_explanations n km us g s = explanations_spec n km us g s.
Proof.
  unfold build_explanations, explanations_spec.
  destruct (F64.geb n (F64.of_Z 60)), km, us, (40 <=? g), (30 <=? s); reflexivity.
Qed.

Lemma explanations_spec_nonempty (n : F64.t) (km us : list string) (g s : Z) :
  explanations_spec n km us g s <> [].
Proof.
  unfold explanations_spec.
  match goal with |- context [is_empty ?l] => destruct l end; discriminate.
Qed.

Lemma explanations_nonempty (m : string) : explanations (detect_fraud m) <> [].
Proof.
  destruct (detect_fraud_fields m) as (_ & _ & He & _).
  rewrite He, build_explanations_spec. apply explanations_spec_nonempty.
Qed.

(** [C8] For every message the explanation list is the list of guarded
    entries in the fixed order (high style score, keyword matches,
    suspicious URLs, urgency at least 40, sensitive score at least 30), each
    guard evaluated independently, or the single fallback string when no
    guard holds; in particular it is never empty. *)
Theorem explanations_priority_order :
  forall m : string,
    explanations (detect_fraud m)
      = explanations_spec (style_score m) (keyword_matches m) (suspicious_urls m)
                          (analyze_urgency m) (analyze_sensitive_requests m) /\
    explanations (detect_fraud m) <> [].
Proof.
  intros m. destruct (detect_fraud_fields m) as (_ & _ & He & _).
  rewrite He, build_explanations_spec.
  split; [reflexivity | apply explanations_spec_nonempty].
Qed.

(** ** Determinism and the empty message *)

(** [C4] [detect_fraud] is a function of the message text alone: two
    evaluations on equal messages give the same report, field by field. *)
Theorem detect_fraud_deterministic :
  forall m m' : string, m = m' -> detect_fraud m = detect_fraud m'.
Proof. intros m m' E. subst m'. reflexivity. Qed.

Lemma detect_fraud_well_formed (m : string) : well_formed (detect_fraud m).
Proof.
  destruct (report_bounds m) as (_ & B2 & B3 & B4 & B5 & Br & Hc).
  destruct (detect_fraud_fields m) as (_ & _ & _ & E1 & E2 & E3 & E4).
  pose proof (explanations_nonempty m) as He.
  unfold well_formed. rewrite E1, E2, E3, E4. tauto.
Qed.

Lemma detect_fraud_deterministic_witness :
  scenario2_message = scenario2_message /\
  detect_fraud scenario2_message = detect_fraud scenario2_message.
Proof.
  split; [reflexivity | apply (detect_fraud_deterministic scenario2_message); reflexivity].
Defined.

(** [C5] On the empty message the report is complete: classification
    "safe", risk score 0, the single fallback explanation, and zero scores
    with style label "safe" and confidence 1 in the details.  Every message,
    the empty one included, yields a well-formed report (a classification of
    the two values, scores in [0, 100], a non-empty explanation list): the
    engine has no error result. *)
Theorem empty_message_report :
  detect_fraud "" =
    {| classification := "safe";
       risk_score := 0;
       explanations := [FALLBACK];
       details := {| nlp := {| nlp_fraud_score := F64.of_Z 0;
                               nlp_label := "safe";
                               nlp_confidence := F64.of_Z 1 |};
                     keywords_score := 0;
                     keywords_matches := [];
                     urls_score := 0;
                     urls_suspicious_urls := [];
                     urgency_score := 0;
                     sensitive_info_score := 0 |} |} /\
  well_formed (detect_fraud "") /\
  (forall m : string, well_formed (detect_fraud m)).
Proof.
  refine (conj _ (conj (detect_fraud_well_formed "") detect_fraud_well_formed)).
  vm_compute. reflexivity.
Qed.

(** [C3] Scenario 2: on "URGENT! Verify your account now by clicking this
    link: http://bit.ly/xyz" the keyword detector gives 18 with matches
    urgent, verify, account, click; the URL detector 40 with the one URL
    http://bit.ly/xyz; urgency 0; sensitive information 30; the style
    detector fires the urgency, action and financial checks only and gives
    score 50, label "suspicious" and confidence 0.575 (the binary64 value of
    that literal); the fused risk score is 34 and the classification
    "safe".  The report's details carry the confidence rounded to two
    places, 0.57. *)
Theorem scenario2_report :
  let m := scenario2_message in
  analyze_keywords m = (18, ["urgent"; "verify"; "account"; "click"]) /\
  analyze_urls m = (40, ["http://bit.ly/xyz"]) /\
  analyze_urgency m = 0 /\
  analyze_sensitive_requests m = 30 /\
  [check_exclamations m; check_caps m; check_urgency_words m;
   check_action_words m; check_threat_words m; check_financial_words m]
    = [false; false; true; true; false; true] /\
  simple_nlp_fraud_score m = (F64.of_Z 50, "suspicious", F64.lit 575 1000) /\
  risk_score (detect_fraud m) = 34 /\
  classification (detect_fraud m) = "safe" /\
  nlp_confidence (nlp (details (detect_fraud m))) = F64.lit 57 100.
Proof.
  intros m.
  repeat (refine (conj _ _)); vm_compute; reflexivity.
Qed.

(** ** Style confidence *)

Lemma confidence_table : forallb confidence_ok (zrange 7) = true.
Proof. vm_compute. reflexivity. Qed.

Lemma style_confidence_facts (m : string) :
  confidence_ok (fraud_indicators m) = true /\
  style_score m = nlp_score_of (fraud_indicators m) /\
  (style_label m, style_confidence m)
    = nlp_label_confidence (nlp_score_of (fraud_indicators m)).
Proof.
  pose proof confidence_table as T. rewrite forallb_forall in T.
  refine (conj _ (conj _ _)).
  - apply T, in_zrange. pose proof (fraud_indicators_range m). simpl. lia.
  - unfold style_score. rewrite simple_nlp_fraud_score_eq. reflexivity.
  - unfold style_label, style_confidence. rewrite simple_nlp_fraud_score_eq.
    cbn [fst snd]. destruct (nlp_label_confidence _). reflexivity.
Qed.

(** [C10] For every message the style confidence [c] lies in [1/2, 1]; with
    label "fraud" it lies in [3/5, 1], with label "suspicious" in
    [1/2, 13/20), with label "safe" it is above 3/5; and the label is one
    of these three. *)
Theorem style_confidence_bounds :
  forall m : string,
    let c := F64.val (style_confidence m) in
    ((1 # 2) <= c <= 1)%Q /\
    (style_label m = "fraud" \/ style_label m = "suspicious" \/ style_label m = "safe") /\
    (style_label m = "fraud" -> (3 # 5) <= c <= 1)%Q /\
    (style_label m = "suspicious" -> (1 # 2) <= c < (13 # 20))%Q /\
    (style_label m = "safe" -> (3 # 5) < c)%Q.
Proof.
  intros m c. subst c.
  destruct (style_confidence_facts m) as (T & _ & E).
  unfold confidence_ok in T.
  destruct (nlp_label_confidence (nlp_score_of (fraud_indicators m))) as [l cf].
  injection E as El Ec. rewrite El, Ec.
  apply andb_prop in T as [T Hl]. apply andb_prop in T as [T Hc1].
  apply andb_prop in T as [T Hc0]. apply Qle_bool_iff in Hc1, Hc0.
  assert (Hlt : forall x y, Qle_bool x y = false -> (y < x)%Q).
  { intros x y H. apply Qnot_le_lt. intros H'. apply Qle_bool_iff in H'.
    congruence. }
  destruct (String.eqb_spec l "fraud") as [->|Nf].
  { apply Qle_bool_iff in Hl. split; [split; assumption|].
    split; [left; reflexivity|].
    split; [intros _; split; assumption|].
    split; intros H; discriminate H. }
  destruct (String.eqb_spec l "suspicious") as [->|Ns].
  { apply negb_true_iff, Hlt in Hl. split; [split; assumption|].
    split; [right; left; reflexivity|].
    split; [intros H; discriminate H|].
    split; [intros _; split; assumption | intros H; discriminate H]. }
  apply andb_prop in Hl as [Hs Hl]. apply String.eqb_eq in Hs. subst l.
  apply negb_true_iff, Hlt in Hl. split; [split; assumption|].
  split; [right; right; reflexivity|].
  split; [intros H; discriminate H|].
  split; [intros H; discriminate H | intros _; exact Hl].
Qed.

Lemma style_confidence_bounds_witness :
  style_label scenario2_message = "suspicious" /\
  ((1 # 2) <= F64.val (style_confidence scenario2_message) < (13 # 20))%Q.
Proof.
  assert (L : style_label scenario2_message = "suspicious") by (vm_compute; reflexivity).
  split; [exact L|].
  destruct (style_confidence_bounds scenario2_message) as (_ & _ & _ & Hs & _).
  exact (Hs L).
Defined.

(** ** URL score *)

Lemma scan_url_patterns_eq (ps : list regex) (url : string) (acc : list string) :
  scan_url_patterns ps url acc
  = if existsb (fun pattern => search_i pattern url) ps then (acc ++ [url])%list else acc.
Proof.
  induction ps as [|p ps IH]; simpl; [reflexivity|].
  destruct (search_i p url); [reflexivity | exact IH].
Qed.

Lemma scan_urls_filter (urls acc : list string) :
  fold_left (fun acc url => scan_url_patterns SUSPICIOUS_URL_PATTERNS url acc) urls acc
  = (acc ++ filter is_suspicious_url urls)%list.
Proof.
  revert acc. induction urls as [|url urls IH]; intros acc; cbn [fold_left filter].
  - rewrite app_nil_r. reflexivity.
  - rewrite IH, scan_url_patterns_eq. unfold is_suspicious_url.
    destruct (existsb _ _); [rewrite <- app_assoc; reflexivity | reflexivity].
Qed.

Lemma suspicious_urls_filter (m : string) :
  suspicious_urls m = filter is_suspicious_url (findall url_pattern m) /\
  url_score m = Z.min 100 (Z.of_nat (List.length (suspicious_urls m)) * 40).
Proof.
  unfold suspicious_urls, url_score, analyze_urls. cbn [fst snd].
  rewrite scan_urls_filter. split; reflexivity.
Qed.

(** [C6] For every message, the URL score is [min(100, 40 * n)] where [n]
    is the number of URLs extracted by [https?://[^\s]+] that match at
    least one suspicious pattern, and those URLs, in order, are the reported
    suspicious URLs; when at least three distinct suspicious URLs are
    reported the score is exactly 100. *)
Theorem url_score_saturates :
  forall m : string,
    let n := List.length (filter is_suspicious_url (findall url_pattern m)) in
    suspicious_urls m = filter is_suspicious_url (findall url_pattern m) /\
    url_score m = Z.min 100 (40 * Z.of_nat n) /\
    ((3 <= List.length (nodup string_dec (suspicious_urls m)))%nat -> url_score m = 100).
Proof.
  intros m n. subst n.
  destruct (suspicious_urls_filter m) as [Es Eu].
  assert (Hl : (List.length (nodup string_dec (suspicious_urls m))
                <= List.length (suspicious_urls m))%nat).
  { apply NoDup_incl_length; [apply NoDup_nodup|].
    intros x Hx. apply nodup_In in Hx. exact Hx. }
  refine (conj Es (conj _ _)).
  - rewrite Eu, Es. f_equal. lia.
  - intros H3. rewrite Eu. lia.
Qed.

Lemma url_score_saturates_witness :
  (3 <= List.length (nodup string_dec (suspicious_urls three_urls_message)))%nat /\
  url_score three_urls_message = 100.
Proof.
  assert (H3 : (3 <= List.length (nodup string_dec (suspicious_urls three_urls_message)))%nat)
    by (vm_compute; lia).
  split; [exact H3|].
  destruct (url_score_saturates three_urls_message) as (_ & _ & H).
  exact (H H3).
Defined.

(** ** Upper-case words *)

Lemma has_upper_iff (s : string) :
  has_upper s = true <->
  exists c, In c (list_ascii_of_string s) /\ is_upper_char c = true.
Proof.
  induction s as [|c s IH]; simpl.
  - split; [discriminate | intros (c & [] & _)].
  - rewrite orb_true_iff, IH. split.
    + intros [H | (x & Hx & H)]; [exists c | exists x]; tauto.
    + intros (x & [<- | Hx] & H); [left | right; exists x]; tauto.
Qed.

Lemma has_lower_false (s : string) :
  has_lower s = false <->
  forall c, In c (list_ascii_of_string s) -> is_lower_char c = false.
Proof.
  induction s as [|c s IH]; simpl.
  - split; [intros _ c [] | reflexivity].
  - rewrite orb_false_iff, IH. split.
    + intros [H1 H2] x [<- | Hx]; auto.
    + intros H. split; [apply H; left | intros x Hx; apply H; right]; auto.
Qed.

Lemma isupper_iff (w : string) : isupper w = true <-> entirely_upper w.
Proof.
  unfold isupper, entirely_upper.
  rewrite andb_true_iff, negb_true_iff, has_upper_iff, has_lower_false.
  reflexivity.
Qed.

Lemma filter_length_pos {A} (P : A -> bool) (l : list A) (y : A) :
  In y l -> P y = true -> (1 <= List.length (filter P l))%nat.
Proof.
  intros Hy Py. assert (Hf : In y (filter P l)) by (apply filter_In; auto).
  destruct (filter P l); [destruct Hf | simpl; lia].
Qed.

Lemma two_in_filter {A} (P : A -> bool) (l : list A) :
  (2 <= List.length (filter P l))%nat <->
  exists i j x y, (i < j)%nat /\ nth_error l i = Some x /\ nth_error l j = Some y /\
                  P x = true /\ P y = true.
Proof.
  induction l as [|a l IH]; simpl.
  - split; [lia | intros (i & j & x & y & _ & Hi & _); destruct i; discriminate Hi].
  - split.
    + destruct (P a) eqn:Pa; simpl.
      * intros H.
        destruct (filter P l) as [|y f] eqn:Ef; [simpl in H; lia|].
        assert (Hy : In y (filter P l)) by (rewrite Ef; left; reflexivity).
        apply filter_In in Hy as [Hy Py].
        apply In_nth_error in Hy as [j Hj].
        exists 0%nat, (S j), a, y. simpl. repeat split; auto; lia.
      * intros H. apply IH in H as (i & j & x & y & Hij & Hi & Hj & Px & Py).
        exists (S i), (S j), x, y. simpl. repeat split; auto; lia.
    + intros (i & j & x & y & Hij & Hi & Hj & Px & Py).
      destruct j as [|j]; [lia|]. simpl in Hj.
      destruct i as [|i]; simpl in Hi.
      * injection Hi as <-. rewrite Px. simpl.
        pose proof (filter_length_pos P l y (nth_error_In l j Hj) Py). lia.
      * assert (H2 : (2 <= List.length (filter P l))%nat).
        { apply IH. exists i, j, x, y. repeat split; auto; lia. }
        destruct (P a); simpl; lia.
Qed.

(** [C9] The second style check fires exactly when [message.split()] has
    two words, at distinct positions, each entirely upper case (an
    upper-case letter and no lower-case letter, as [str.isupper]) and
    longer than two characters; and it adds exactly one point to the
    indicator count. *)
Theorem caps_check_two_upper_words :
  forall m : string,
    (check_caps m = true <->
     exists i j w1 w2, (i < j)%nat /\
       nth_error (split_words m) i = Some w1 /\ nth_error (split_words m) j = Some w2 /\
       entirely_upper w1 /\ (2 < String.length w1)%nat /\
       entirely_upper w2 /\ (2 < String.length w2)%nat) /\
    fraud_indicators m
      = Z.b2z (check_exclamations m) + Z.b2z (check_caps m) + Z.b2z (check_urgency_words m)
        + Z.b2z (check_action_words m) + Z.b2z (check_threat_words m)
        + Z.b2z (check_financial_words m).
Proof.
  intros m. split.
  - unfold check_caps, caps_words. rewrite Nat.leb_le, two_in_filter.
    split.
    + intros (i & j & x & y & Hij & Hi & Hj & Px & Py).
      apply andb_prop in Px as [Ux Lx]. apply andb_prop in Py as [Uy Ly].
      apply isupper_iff in Ux, Uy. apply Nat.ltb_lt in Lx, Ly.
      exists i, j, x, y. tauto.
    + intros (i & j & x & y & Hij & Hi & Hj & Ux & Lx & Uy & Ly).
      exists i, j, x, y. repeat split; auto; apply andb_true_iff; split;
        try (apply isupper_iff; assumption); apply Nat.ltb_lt; assumption.
  - unfold fraud_indicators. cbn [fold_left].
    destruct (check_exclamations m), (check_caps m), (check_urgency_words m),
      (check_action_words m), (check_threat_words m), (check_financial_words m);
      reflexivity.
Qed.

(** ** Keyword presence *)

Lemma str_app_assoc (a b c : string) : ((a ++ b) ++ c) = (a ++ (b ++ c)).
Proof. induction a as [|x a IH]; simpl; [reflexivity | rewrite IH; reflexivity]. Qed.

Lemma lower_app (a b : string) : lower (a ++ b) = lower a ++ lower b.
Proof. induction a as [|x a IH]; simpl; [reflexivity | rewrite IH; reflexivity]. Qed.

Lemma is_prefix_spec (p s : string) :
  is_prefix p s = true <-> exists v, s = p ++ v.
Proof.
  revert s. induction p as [|x p IH]; intros s; simpl.
  - split; [intros _; exists s; reflexivity | reflexivity].
  - destruct s as [|y s].
    + split; [discriminate | intros [v Hv]; discriminate Hv].
    + rewrite andb_true_iff, IH, Ascii.eqb_eq. split.
      * intros [<- [v ->]]. exists v. reflexivity.
      * intros [v Hv]. injection Hv as -> ->. split; [reflexivity | exists v; reflexivity].
Qed.

Lemma contains_spec (n h : string) :
  contains n h = true <-> exists u v, h = u ++ n ++ v.
Proof.
  induction h as [|y h IH]; simpl.
  - rewrite is_prefix_spec. split.
    + intros [v Hv]. exists "", v. exact Hv.
    + intros (u & v & Hv). destruct u as [|z u]; [exists v; exact Hv | discriminate Hv].
  - rewrite orb_true_iff, is_prefix_spec, IH. split.
    + intros [[v Hv] | (u & v & Hv)].
      * exists "", v. exact Hv.
      * exists (String y u), v. rewrite Hv. reflexivity.
    + intros (u & v & Hv). destruct u as [|z u].
      * left. exists v. exact Hv.
      * right. injection Hv as _ Hv. exists u, v. exact Hv.
Qed.

Lemma contains_trans (a b h : string) :
  contains a b = true -> contains b h = true -> contains a h = true.
Proof.
  rewrite !contains_spec. intros (u1 & v1 & ->) (u2 & v2 & ->).
  exists (u2 ++ u1), (v1 ++ v2).
  rewrite !str_app_assoc. reflexivity.
Qed.

Lemma contains_app_l (n a b : string) :
  contains n a = true -> contains n (a ++ b) = true.
Proof.
  rewrite !contains_spec. intros (u & v & ->). exists u, (v ++ b).
  rewrite !str_app_assoc. reflexivity.
Qed.

Lemma prefix_app_cons (n l k : string) (c : ascii) :
  is_prefix n (l ++ String c k) = true -> is_prefix n l = true \/ crosses n c k = true.
Proof.
  revert l. induction n as [|x n IH]; intros l H; [left; reflexivity|].
  destruct l as [|y l]; simpl in H |- *.
  - right. rewrite H. reflexivity.
  - apply andb_prop in H as [Hxy H]. destruct (IH l H) as [H' | H'].
    + left. rewrite Hxy, H'. reflexivity.
    + right. rewrite H', orb_true_r. reflexivity.
Qed.

Lemma contains_app_cons (n l k : string) (c : ascii) :
  contains n (l ++ String c k) = true ->
  contains n l = true \/ contains n k = true \/ crosses n c k = true.
Proof.
  induction l as [|y l IH]; intros H.
  - simpl in H. apply orb_prop in H as [H | H].
    + apply (prefix_app_cons n "" k c) in H as [H | H].
      * left. destruct n; [reflexivity | discriminate H].
      * right; right. exact H.
    + right; left. exact H.
  - change (String y l ++ String c k) with (String y (l ++ String c k)) in H.
    simpl in H. apply orb_prop in H as [H | H].
    + change (String y (l ++ String c k)) with (String y l ++ String c k) in H.
      apply prefix_app_cons in H as [H | H].
      * left. simpl. rewrite H. reflexivity.
      * right; right. exact H.
    + destruct (IH H) as [H' | H']; [left | right; exact H'].
      simpl. rewrite H', orb_true_r. reflexivity.
Qed.

Lemma crosses_in (n k : string) (c : ascii) :
  crosses n c k = true -> In c (list_ascii_of_string n).
Proof.
  induction n as [|x n IH]; simpl; [discriminate|].
  intros H. apply orb_prop in H as [H | H].
  - apply andb_prop in H as [H _]. apply Ascii.eqb_eq in H. left. exact H.
  - right. exact (IH H).
Qed.

Lemma lower_char_not_letter (c : ascii) :
  is_ascii_letter c = false -> is_ascii_letter (lower_char c) = false.
Proof.
  destruct c as [b0 b1 b2 b3 b4 b5 b6 b7].
  destruct b0, b1, b2, b3, b4, b5, b6, b7; vm_compute; congruence.
Qed.

Lemma keywords_lower : forallb (fun k => String.eqb (lower k) k) keyword_names = true.
Proof. vm_compute. reflexivity. Qed.

Lemma crossing_table :
  forallb (fun kw => forallb (fun k =>
    forallb (fun x => is_ascii_letter x || negb (crosses kw x k)) (list_ascii_of_string kw))
    keyword_names) keyword_names = true.
Proof. vm_compute. reflexivity. Qed.

Lemma keyword_fold_congr (ml1 ml2 : string) (l : list (string * Z)) (acc : Z * list string) :
  (forall e, In e l -> contains (fst e) ml1 = contains (fst e) ml2) ->
  fold_left (keyword_step ml1) l acc = fold_left (keyword_step ml2) l acc.
Proof.
  revert acc. induction l as [|[kw w] l IH]; intros [s ms] H; simpl; [reflexivity|].
  rewrite (IH _ (fun e He => H e (or_intror He))).
  f_equal. unfold keyword_step.
  pose proof (H (kw, w) (or_introl eq_refl)) as Hk. simpl in Hk. rewrite Hk. reflexivity.
Qed.

Lemma keyword_contains_append (m k kw : string) (c : ascii) :
  In k keyword_names -> In kw keyword_names ->
  contains k (lower m) = true -> is_ascii_letter c = false ->
  contains kw (lower (m ++ String c k)) = contains kw (lower m).
Proof.
  intros Hk Hkw Hkm Hc.
  assert (Lk : lower k = k).
  { pose proof keywords_lower as T. rewrite forallb_forall in T.
    apply String.eqb_eq, T, Hk. }
  rewrite lower_app. cbn [lower]. rewrite Lk.
  destruct (contains kw (lower m)) eqn:E.
  - apply contains_app_l. exact E.
  - destruct (contains kw (lower m ++ String (lower_char c) k)) eqn:E2; [|reflexivity].
    exfalso. apply contains_app_cons in E2 as [E2 | [E2 | E2]].
    + congruence.
    + pose proof (contains_trans _ _ _ E2 Hkm). congruence.
    + pose proof crossing_table as T. rewrite forallb_forall in T.
      specialize (T kw Hkw). rewrite forallb_forall in T. specialize (T k Hk).
      rewrite forallb_forall in T. specialize (T _ (crosses_in _ _ _ E2)).
      rewrite (lower_char_not_letter c Hc), E2 in T. discriminate T.
Qed.

(** [C7] (amended) Keyword matching is presence-based once the appended
    occurrence is separated: for a Latin-1 message [m] (code points below
    256) in which the keyword [k] already occurs case-insensitively, appending
    a Latin-1 character [c] that is not an ASCII letter (a space, say)
    followed by [k] changes neither the keyword score nor the matched
    keywords. *)
Theorem keyword_presence_separated :
  forall (m k : string) (c : ascii),
    In k keyword_names -> contains k (lower m) = true -> is_ascii_letter c = false ->
    analyze_keywords (m ++ String c k) = analyze_keywords m /\
    keyword_score (m ++ String c k) = keyword_score m.
Proof.
  intros m k c Hk Hkm Hc.
  assert (E : analyze_keywords (m ++ String c k) = analyze_keywords m).
  { unfold analyze_keywords.
    rewrite (keyword_fold_congr (lower (m ++ String c k)) (lower m)); [reflexivity|].
    intros e He. apply keyword_contains_append; auto.
    unfold keyword_names. apply in_map. exact He. }
  split; [exact E | unfold keyword_score; rewrite E; reflexivity].
Qed.

Lemma keyword_presence_separated_witness :
  In "pin" keyword_names /\ contains "pin" (lower elliot_message) = true /\
  is_ascii_letter " " = false /\
  keyword_score (elliot_message ++ " pin") = keyword_score elliot_message.
Proof.
  assert (H1 : In "pin" keyword_names) by (vm_compute; tauto).
  assert (H2 : contains "pin" (lower elliot_message) = true) by (vm_compute; reflexivity).
  assert (H3 : is_ascii_letter " " = false) by (vm_compute; reflexivity).
  refine (conj H1 (conj H2 (conj H3 _))).
  exact (proj2 (keyword_presence_separated elliot_message "pin" " " H1 H2 H3)).
Defined.

(** [C7] counterexample: "pin" occurs in "Send your pin to Elliot", yet
    appending "pin" directly creates "otp" at the junction ("...Elliotpin"),
    and the keyword score goes from 6 to 12. *)
Lemma keyword_presence_counterexample :
  In "pin" keyword_names /\ contains "pin" (lower elliot_message) = true /\
  analyze_keywords elliot_message = (6, ["pin"]) /\
  analyze_keywords (elliot_message ++ "pin") = (12, ["otp"; "pin"]) /\
  keyword_score (elliot_message ++ "pin") <> keyword_score elliot_message.
Proof.
  refine (conj _ (conj _ (conj _ (conj _ _)))); vm_compute;
    [tauto | reflexivity | reflexivity | reflexivity | discriminate].
Defined.


(** ** The endpoint *)

Lemma strip_empty_iff (s : string) :
  strip s = EmptyString <-> forall c, In c (list_ascii_of_string s) -> is_space c = true.
Proof.
  unfold strip.
  assert (R : forall t, rstrip t = EmptyString <->
                        forall c, In c (list_ascii_of_string t) -> is_space c = true).
  { induction t as [|c t IH]; simpl.
    - split; [intros _ x [] | reflexivity].
    - destruct (rstrip t) as [|y t'] eqn:E.
      + destruct (is_space c) eqn:Sc.
        * split; [intros _ x [<- | Hx]; [exact Sc | apply IH; auto] | reflexivity].
        * split; [discriminate | intros H; rewrite H in Sc; [discriminate | left; auto]].
      + split; [discriminate|]. intros H.
        assert (H' : String y t' = EmptyString) by (apply IH; intros x Hx; apply H; right; exact Hx).
        discriminate H'. }
  induction s as [|c s IH]; simpl.
  - split; [intros _ x [] | reflexivity].
  - destruct (is_space c) eqn:Sc.
    + rewrite IH. split.
      * intros H x [<- | Hx]; [exact Sc | apply H; exact Hx].
      * intros H x Hx. apply H. right. exact Hx.
    + rewrite R. simpl. split.
      * intros H x Hx. apply H. exact Hx.
      * intros H. rewrite H in Sc; [discriminate | left; reflexivity].
Qed.

Lemma contains_obj (entries : list (string * json)) :
  existsb (fun e => String.eqb (fst e) "message") entries
  = match json_lookup "message" entries with Some _ => true | None => false end.
Proof.
  induction entries as [|[k v] entries IH]; simpl; [reflexivity|].
  destruct (String.eqb k "message"); [reflexivity | exact IH].
Qed.

Lemma detect_obj (entries : list (string * json)) :
  detect (JObj entries) =
  match json_lookup "message" entries with
  | None => missing_field
  | Some v =>
      if negb (truthy v) then empty_message else
      match v with
      | JStr m => if String.eqb (strip m) "" then empty_message
                  else {| status := 200; body := Report (detect_fraud m) |}
      | _ => server_error AttributeError
      end
  end.
Proof.
  unfold detect, detect_body, py_contains, py_getitem. rewrite contains_obj.
  destruct entries as [|e entries'] eqn:Ee; [reflexivity|]. rewrite <- Ee.
  cbn [truthy is_empty negb]. rewrite Ee at 1. cbn [is_empty negb].
  destruct (json_lookup "message" entries) as [v|]; [|reflexivity].
  destruct (truthy v); cbn [negb]; [|reflexivity].
  destruct v as [| | |m| |]; try reflexivity.
  cbn [py_strip]. destruct (String.eqb (strip m) ""); reflexivity.
Qed.

Lemma detect_arr (items : list json) :
  detect (JArr items) =
  if existsb (fun x => is_json_str x "message") items then server_error TypeError
  else missing_field.
Proof.
  unfold detect, detect_body. destruct items as [|x items]; [reflexivity|].
  cbn [truthy is_empty negb py_contains].
  destruct (existsb _ _); reflexivity.
Qed.

Lemma detect_str (s : string) :
  detect (JStr s) = if contains "message" s then server_error TypeError else missing_field.
Proof.
  unfold detect, detect_body. destruct s as [|c s]; [reflexivity|].
  cbn [truthy py_contains]. change (String.eqb (String c s) "") with false. cbn [negb].
  destruct (contains "message" (String c s)); reflexivity.
Qed.

Lemma detect_scalar :
  detect JNull = missing_field /\
  (forall b, detect (JBool b) = if b then server_error TypeError else missing_field) /\
  (forall q, detect (JNum q) = if Qeq_bool q 0 then missing_field else server_error TypeError).
Proof.
  split; [reflexivity|]. split.
  - intros []; reflexivity.
  - intros q. unfold detect, detect_body. cbn [truthy py_contains].
    destruct (Qeq_bool q 0); reflexivity.
Qed.

Lemma is_json_str_in (items : list json) (key : string) :
  existsb (fun x => is_json_str x key) items = true <-> In (JStr key) items.
Proof.
  rewrite existsb_exists. split.
  - intros (x & Hx & E). destruct x; try discriminate E.
    apply String.eqb_eq in E. subst. exact Hx.
  - intros H. exists (JStr key). split; [exact H | apply String.eqb_refl].
Qed.

Lemma nonspace_strip (m : string) :
  (exists c, In c (list_ascii_of_string m) /\ is_space c = false) <->
  String.eqb (strip m) "" = false.
Proof.
  destruct (String.eqb (strip m) "") eqn:S.
  - apply String.eqb_eq in S. pose proof (proj1 (strip_empty_iff m) S) as A.
    split; [|discriminate].
    intros (c & Hc & Hs). rewrite (A c Hc) in Hs. discriminate Hs.
  - split; [reflexivity|]. intros _.
    destruct (existsb (fun c => negb (is_space c)) (list_ascii_of_string m)) eqn:X.
    + apply existsb_exists in X as (c & Hc & Hs). exists c.
      split; [exact Hc | apply negb_true_iff; exact Hs].
    + exfalso. assert (E : strip m = EmptyString).
      { apply strip_empty_iff. intros c Hc.
        destruct (is_space c) eqn:Sc; [reflexivity|].
        assert (Hx : existsb (fun c => negb (is_space c)) (list_ascii_of_string m) = true)
          by (apply existsb_exists; exists c; rewrite Sc; auto).
        congruence. }
      rewrite E in S. discriminate S.
Qed.

Lemma lookup_truthy (entries : list (string * json)) (v : json) :
  json_lookup "message" entries = Some v -> truthy (JObj entries) = true.
Proof. destruct entries; [discriminate | reflexivity]. Qed.

(** The endpoint answers 200 with a report exactly when the body is a JSON object whose
    first "message" entry is a string with a non-whitespace character; the report is
    [detect_fraud] of that string, unstripped. *)
Theorem detect_ok :
  forall (data : json) (r : FraudReport),
    detect data = {| status := 200; body := Report r |} <->
    exists entries m, data = JObj entries /\
      json_lookup "message" entries = Some (JStr m) /\
      (exists c, In c (list_ascii_of_string m) /\ is_space c = false) /\
      r = detect_fraud m.
Proof.
  intros data r. destruct data as [|b|q|s|items|entries].
  - rewrite (proj1 detect_scalar). split; [discriminate | intros (? & ? & H & _); discriminate H].
  - rewrite (proj1 (proj2 detect_scalar)). split; [destruct b; discriminate|].
    intros (? & ? & H & _); discriminate H.
  - rewrite (proj2 (proj2 detect_scalar)). split; [destruct (Qeq_bool q 0); discriminate|].
    intros (? & ? & H & _); discriminate H.
  - rewrite detect_str. split; [destruct (contains _ _); discriminate|].
    intros (? & ? & H & _); discriminate H.
  - rewrite detect_arr. split; [destruct (existsb _ _); discriminate|].
    intros (? & ? & H & _); discriminate H.
  - rewrite detect_obj. split.
    + destruct (json_lookup "message" entries) as [v|] eqn:L; [|discriminate].
      destruct (truthy v) eqn:T; cbn [negb]; [|discriminate].
      destruct v as [| | |m| |]; try discriminate.
      destruct (String.eqb (strip m) "") eqn:S; [discriminate|].
      intros H. injection H as <-. exists entries, m.
      split; [reflexivity|]. split; [exact L|].
      split; [apply nonspace_strip; exact S | reflexivity].
    + intros (en & m & H1 & L & N & ->). injection H1 as <-. rewrite L.
      apply nonspace_strip in N. rewrite N.
      destruct m as [|c m]; [discriminate N | reflexivity].
Qed.

(** The missing-field 400 answer: a falsy body, an object without "message", a list
    without the string "message", or a string not containing "message". *)
Theorem detect_missing_field :
  forall data : json,
    detect data = bad_request "Missing 'message' field in request" <->
    truthy data = false \/
    (exists entries, data = JObj entries /\ json_lookup "message" entries = None) \/
    (exists items, data = JArr items /\ ~ In (JStr "message") items) \/
    (exists s, data = JStr s /\ contains "message" s = false).
Proof.
  intros data. destruct data as [|b|q|s|items|entries].
  - rewrite (proj1 detect_scalar). split; [left; reflexivity | reflexivity].
  - rewrite (proj1 (proj2 detect_scalar)). destruct b; cbn [truthy].
    + split; [discriminate|].
      intros [H | [(? & H & _) | [(? & H & _) | (? & H & _)]]]; discriminate H.
    + split; [left; reflexivity | reflexivity].
  - rewrite (proj2 (proj2 detect_scalar)). cbn [truthy].
    destruct (Qeq_bool q 0); cbn [negb].
    + split; [left; reflexivity | reflexivity].
    + split; [discriminate|].
      intros [H | [(? & H & _) | [(? & H & _) | (? & H & _)]]]; discriminate H.
  - rewrite detect_str. destruct (contains "message" s) eqn:C.
    + split; [discriminate|].
      intros [H | [(? & H & _) | [(? & H & _) | (s' & H & C')]]]; try discriminate H.
      * destruct s; [discriminate C | discriminate H].
      * injection H as <-. congruence.
    + split; [intros _; right; right; right; exists s; auto | reflexivity].
  - rewrite detect_arr. destruct (existsb _ items) eqn:C.
    + split; [discriminate|]. apply is_json_str_in in C.
      intros [H | [(? & H & _) | [(i & H & N) | (? & H & _)]]]; try discriminate H.
      * destruct items; [destruct C | discriminate H].
      * injection H as <-. contradiction.
    + split; [intros _; right; right; left; exists items; split; [reflexivity|]|reflexivity].
      intros Hin. apply is_json_str_in in Hin. congruence.
  - rewrite detect_obj. destruct (json_lookup "message" entries) as [v|] eqn:L.
    + split.
      * destruct (negb (truthy v)); [discriminate|].
        destruct v as [| | |m| |]; try discriminate.
        destruct (String.eqb (strip m) ""); discriminate.
      * rewrite (lookup_truthy _ _ L).
        intros [H | [(en & H & L') | [(? & H & _) | (? & H & _)]]]; try discriminate H.
        injection H as <-. congruence.
    + split; [intros _; right; left; exists entries; auto | reflexivity].
Qed.

(** The empty-message 400 answer: the "message" entry is falsy or a whitespace-only
    string. *)
Theorem detect_empty_message :
  forall data : json,
    detect data = bad_request "Message cannot be empty" <->
    exists entries v, data = JObj entries /\ json_lookup "message" entries = Some v /\
      (truthy v = false \/
       exists m, v = JStr m /\ forall c, In c (list_ascii_of_string m) -> is_space c = true).
Proof.
  intros data. destruct data as [|b|q|s|items|entries].
  - rewrite (proj1 detect_scalar). split; [discriminate | intros (? & ? & H & _); discriminate H].
  - rewrite (proj1 (proj2 detect_scalar)). split; [destruct b; discriminate|].
    intros (? & ? & H & _); discriminate H.
  - rewrite (proj2 (proj2 detect_scalar)). split; [destruct (Qeq_bool q 0); discriminate|].
    intros (? & ? & H & _); discriminate H.
  - rewrite detect_str. split; [destruct (contains _ _); discriminate|].
    intros (? & ? & H & _); discriminate H.
  - rewrite detect_arr. split; [destruct (existsb _ _); discriminate|].
    intros (? & ? & H & _); discriminate H.
  - rewrite detect_obj. destruct (json_lookup "message" entries) as [v|] eqn:L.
    + destruct (truthy v) eqn:T; cbn [negb].
      * destruct v as [| | |m| |]; try (split; [discriminate|];
          intros (en & v' & H & L' & [Hf | (m' & Hm & _)]);
          injection H as <-; rewrite L in L'; injection L' as <-;
          [congruence | discriminate Hm]).
        destruct (String.eqb (strip m) "") eqn:S.
        -- split; [intros _|reflexivity]. exists entries, (JStr m).
           split; [reflexivity|]. split; [exact L|]. right. exists m.
           split; [reflexivity|]. apply strip_empty_iff, String.eqb_eq, S.
        -- split; [discriminate|].
           intros (en & v' & H & L' & [Hf | (m' & Hm & A)]);
             injection H as <-; rewrite L in L'; injection L' as <-; [congruence|].
           injection Hm as <-. apply strip_empty_iff, String.eqb_eq in A. congruence.
      * split; [intros _ | reflexivity]. exists entries, v. auto.
    + split; [discriminate|]. intros (en & v' & H & L' & _).
      injection H as <-. congruence.
Qed.

(** On a parsed body, the answer is 500 exactly for truthy non-object bodies on
    which the [in] test or the subscript raises, and for truthy non-string
    messages, whose [strip] raises. *)
Lemma detect_parsed_server_error :
  forall data : json,
    status (detect data) = 500 <->
    truthy data = true /\
    ((exists b, data = JBool b) \/ (exists q, data = JNum q) \/
     (exists items, data = JArr items /\ In (JStr "message") items) \/
     (exists s, data = JStr s /\ contains "message" s = true) \/
     (exists entries v, data = JObj entries /\ json_lookup "message" entries = Some v /\
        truthy v = true /\ forall m, v <> JStr m)).
Proof.
  intros data. destruct data as [|b|q|s|items|entries].
  - rewrite (proj1 detect_scalar). split; [discriminate | intros [H _]; discriminate H].
  - rewrite (proj1 (proj2 detect_scalar)). destruct b; cbn [truthy].
    + split; [intros _; split; [reflexivity | left; exists true; reflexivity] | reflexivity].
    + split; [discriminate | intros [H _]; discriminate H].
  - rewrite (proj2 (proj2 detect_scalar)). cbn [truthy]. destruct (Qeq_bool q 0); cbn [negb].
    + split; [discriminate | intros [H _]; discriminate H].
    + split; [intros _; split; [reflexivity | right; left; exists q; reflexivity] | reflexivity].
  - rewrite detect_str. destruct (contains "message" s) eqn:C.
    + assert (T : truthy (JStr s) = true) by (destruct s; [discriminate C | reflexivity]).
      split; [intros _; split; [exact T | right; right; right; left; exists s; auto] | reflexivity].
    + split; [discriminate|].
      intros [_ [(? & H) | [(? & H) | [(? & H & _) | [(s' & H & C') | (? & ? & H & _)]]]]];
        try discriminate H.
      injection H as <-. congruence.
  - rewrite detect_arr. destruct (existsb _ items) eqn:C.
    + apply is_json_str_in in C.
      assert (T : truthy (JArr items) = true) by (destruct items; [destruct C | reflexivity]).
      split; [intros _; split; [exact T | right; right; left; exists items; auto] | reflexivity].
    + split; [discriminate|].
      intros [_ [(? & H) | [(? & H) | [(i & H & Hin) | [(? & H & _) | (? & ? & H & _)]]]]];
        try discriminate H.
      injection H as <-. apply is_json_str_in in Hin. congruence.
  - rewrite detect_obj. destruct (json_lookup "message" entries) as [v|] eqn:L.
    + pose proof (lookup_truthy _ _ L) as T.
      destruct (truthy v) eqn:Tv; cbn [negb].
      * destruct v as [| | |m| |];
          try (split; [intros _; split; [exact T|]; right; right; right; right;
                       exists entries; eexists; split; [reflexivity|];
                       split; [exact L|]; split; [exact Tv | intros m' H; discriminate H]
                      | reflexivity]).
        destruct (String.eqb (strip m) ""); (split; [discriminate|]);
          intros [_ [(? & H) | [(? & H) | [(? & H & _) | [(? & H & _) | (en & v & H & L' & _ & N)]]]]];
          try discriminate H; injection H as <-; rewrite L in L'; injection L' as <-;
          destruct (N m eq_refl).
      * split; [discriminate|].
        intros [_ [(? & H) | [(? & H) | [(? & H & _) | [(? & H & _) | (en & v' & H & L' & Tv' & _)]]]]];
          try discriminate H.
        injection H as <-. rewrite L in L'. injection L' as <-. congruence.
    + split; [discriminate|].
      intros [_ [(? & H) | [(? & H) | [(? & H & _) | [(? & H & _) | (en & v' & H & L' & _)]]]]];
        try discriminate H.
      injection H as <-. congruence.
Qed.

(** ** URL extraction *)


Lemma rep_match_sound {A} (p : ascii -> bool) (s : string) :
  forall (lo : nat) (hi : option nat) (k : string -> option A) (x : A),
  rep_match p lo hi s k = Some x ->
  exists u rest, s = u ++ rest /\ lang (RRep p lo hi) u /\ k rest = Some x.
Proof.
  induction s as [|c t IH]; intros lo hi k x H; simpl in H.
  - destruct (Nat.eqb_spec lo 0) as [->|]; [|discriminate H].
    exists "", "". split; [reflexivity|]. split; [|exact H].
    constructor; [intros ? []| simpl; lia | destruct hi; simpl; [lia | exact I]].
  - destruct (match hi with
              | Some 0%nat => None
              | _ => if p c then rep_match p (pred lo) (option_map pred hi) t k else None
              end) as [y|] eqn:M.
    + injection H as <-.
      assert (Hh : hi <> Some 0%nat /\ p c = true /\
                   rep_match p (pred lo) (option_map pred hi) t k = Some y).
      { destruct hi as [[|h]|]; try discriminate M;
          destruct (p c); try discriminate M; auto using eq_refl; repeat split; auto; discriminate. }
      destruct Hh as (Hh & Pc & R).
      destruct (IH _ _ _ _ R) as (u & rest & -> & Lu & Kr).
      exists (String c u), rest. split; [reflexivity|]. split; [|exact Kr].
      inversion Lu as [| | | | | | | |p' lo' hi' u' Hall Hlo Hhi]; subst.
      constructor.
      * intros c' [<- | Hc']; [exact Pc | apply Hall; exact Hc'].
      * simpl. lia.
      * destruct hi as [[|h]|]; simpl in *; [congruence | lia | exact I].
    + destruct (Nat.eqb_spec lo 0) as [->|]; [|discriminate H].
      exists "", (String c t). split; [reflexivity|]. split; [|exact H].
      constructor; [intros ? []| simpl; lia | destruct hi; simpl; [lia | exact I]].
Qed.

Lemma matcher_sound {A} (r : regex) :
  forall (s : string) (k : string -> option A) (x : A),
  matcher r s k = Some x ->
  exists u rest, s = u ++ rest /\ lang r u /\ k rest = Some x.
Proof.
  induction r as [|c|p|a IHa b IHb|a IHa b IHb|a IHa|p lo hi]; intros s k x H; simpl in H.
  - exists "", s. split; [reflexivity|]. split; [constructor | exact H].
  - destruct s as [|c' t]; [discriminate H|].
    destruct (Ascii.eqb_spec c c') as [<-|]; [|discriminate H].
    exists (String c ""), t. split; [reflexivity|]. split; [constructor | exact H].
  - destruct s as [|c' t]; [discriminate H|].
    destruct (p c') eqn:P; [|discriminate H].
    exists (String c' ""), t. split; [reflexivity|]. split; [constructor; exact P | exact H].
  - destruct (IHa _ _ _ H) as (u & rest & -> & La & Kb).
    destruct (IHb _ _ _ Kb) as (v & rest' & -> & Lb & K).
    exists (u ++ v), rest'. split; [symmetry; apply str_app_assoc|].
    split; [constructor; assumption | exact K].
  - destruct (matcher a s k) as [y|] eqn:Ma.
    + injection H as <-. destruct (IHa _ _ _ Ma) as (u & rest & E & L & K).
      exists u, rest. split; [exact E|]. split; [apply LAltL; exact L | exact K].
    + destruct (IHb _ _ _ H) as (u & rest & E & L & K).
      exists u, rest. split; [exact E|]. split; [apply LAltR; exact L | exact K].
  - destruct (matcher a s k) as [y|] eqn:Ma.
    + injection H as <-. destruct (IHa _ _ _ Ma) as (u & rest & E & L & K).
      exists u, rest. split; [exact E|]. split; [apply LOptSome; exact L | exact K].
    + exists "", s. split; [reflexivity|]. split; [apply LOptNone | exact H].
  - apply rep_match_sound. exact H.
Qed.

Lemma str_length_app (a b : string) :
  String.length (a ++ b) = (String.length a + String.length b)%nat.
Proof. induction a as [|c a IH]; simpl; [reflexivity | rewrite IH; reflexivity]. Qed.

Lemma str_app_empty_r (s : string) : s ++ "" = s.
Proof. induction s as [|c s IH]; simpl; [reflexivity | rewrite IH; reflexivity]. Qed.

Lemma substring_app (u rest : string) :
  substring 0 (String.length (u ++ rest) - String.length rest) (u ++ rest) = u.
Proof.
  rewrite str_length_app. replace (String.length u + String.length rest - String.length rest)%nat
    with (String.length u) by lia.
  induction u as [|c u IH]; simpl; [destruct rest; reflexivity | rewrite IH; reflexivity].
Qed.

Lemma contains_app_r (n a b : string) :
  contains n b = true -> contains n (a ++ b) = true.
Proof.
  rewrite !contains_spec. intros (u & v & ->). exists (a ++ u), v.
  rewrite !str_app_assoc. reflexivity.
Qed.

Lemma findall_fuel_sound (r : regex) (fuel : nat) :
  forall s w, In w (findall_fuel fuel r s) -> lang r w /\ contains w s = true.
Proof.
  induction fuel as [|f IH]; intros s w H; simpl in H; [destruct H|].
  destruct s as [|c t]; [destruct H|].
  destruct (match_prefix r (String c t)) as [rest|] eqn:M.
  - unfold match_prefix in M. apply matcher_sound in M as (u & rest' & E & L & K).
    injection K as <-. rewrite E in H |- *. rewrite substring_app in H.
    destruct H as [<- | H].
    + split; [exact L|]. apply contains_spec. exists "", rest'. reflexivity.
    + destruct (IH _ _ H) as [Lw Cw]. split; [exact Lw | apply contains_app_r; exact Cw].
  - destruct (IH _ _ H) as [Lw Cw]. split; [exact Lw|].
    change (String c t) with (String c "" ++ t). apply contains_app_r. exact Cw.
Qed.

Lemma lang_rlit (s w : string) : lang (rlit s) w -> w = s.
Proof.
  revert w. induction s as [|c t IH]; intros w H.
  - inversion H. reflexivity.
  - destruct t as [|c' t'].
    + inversion H. reflexivity.
    + change (rlit (String c (String c' t'))) with (RSeq (RChar c) (rlit (String c' t'))) in H.
      inversion H as [| | |a b u v Hu Hv| | | | |]; subst.
      inversion Hu; subst. rewrite (IH _ Hv). reflexivity.
Qed.

Lemma ascii_list_app (a b : string) :
  list_ascii_of_string (a ++ b) = (list_ascii_of_string a ++ list_ascii_of_string b)%list.
Proof. induction a as [|c a IH]; simpl; [reflexivity | rewrite IH; reflexivity]. Qed.

Lemma url_pattern_shape (w : string) :
  lang url_pattern w ->
  (is_prefix "http://" w = true \/ is_prefix "https://" w = true) /\
  (forall c, In c (list_ascii_of_string w) -> is_space c = false) /\
  (8 <= String.length w)%nat.
Proof.
  unfold url_pattern, rseq. cbn [fold_right]. intros H.
  inversion H as [| | |a b u1 w1 H1 Hw1| | | | |]; subst.
  inversion Hw1 as [| | |a b o w2 Ho Hw2| | | | |]; subst.
  inversion Hw2 as [| | |a b u3 w3 H3 Hw3| | | | |]; subst.
  inversion Hw3 as [| | |a b v e Hv He| | | | |]; subst.
  inversion He; subst.
  apply (lang_rlit "http") in H1. apply (lang_rlit "://") in H3. subst.
  inversion Hv as [| | | | | | | |p lo hi v' Hall Hlo _]; subst.
  assert (Ho' : o = "" \/ o = "s").
  { inversion Ho; subst; [|left; reflexivity].
    match goal with Hc : lang (RChar _) _ |- _ => inversion Hc end.
    right; reflexivity. }
  rewrite str_app_empty_r in *.
  split; [|split].
  - destruct Ho' as [-> | ->]; [left | right]; apply is_prefix_spec;
      eexists; simpl; reflexivity.
  - intros c Hc. rewrite !ascii_list_app in Hc.
    apply in_app_or in Hc as [Hc | Hc]; [simpl in Hc; intuition (subst; reflexivity)|].
    apply in_app_or in Hc as [Hc | Hc].
    { destruct Ho' as [-> | ->]; simpl in Hc; intuition (subst; reflexivity). }
    apply in_app_or in Hc as [Hc | Hc]; [simpl in Hc; intuition (subst; reflexivity)|].
    apply Hall in Hc. unfold cls_nonspace in Hc. apply negb_true_iff. exact Hc.
  - destruct Ho' as [-> | ->]; simpl; rewrite ?str_length_app; lia.
Qed.

Lemma findall_url_facts (m w : string) :
  In w (findall url_pattern m) ->
  contains w m = true /\
  (is_prefix "http://" w = true \/ is_prefix "https://" w = true) /\
  (forall c, In c (list_ascii_of_string w) -> is_space c = false) /\
  (8 <= String.length w)%nat.
Proof.
  intros H. apply findall_fuel_sound in H as [L C].
  split; [exact C | apply url_pattern_shape; exact L].
Qed.

(** Every reported suspicious URL is a substring of the message that starts with
    http:// or https://, has no whitespace, is at least 8 characters long and contains
    a suspicious pattern. *)
Theorem suspicious_url_shape :
  forall m u : string, In u (suspicious_urls m) ->
    contains u m = true /\ is_suspicious_url u = true /\
    (is_prefix "http://" u = true \/ is_prefix "https://" u = true) /\
    (forall c, In c (list_ascii_of_string u) -> is_space c = false) /\
    (8 <= String.length u)%nat.
Proof.
  intros m u H. destruct (suspicious_urls_filter m) as [E _].
  rewrite E in H. apply filter_In in H as [H S].
  destruct (findall_url_facts m u H) as (C & R).
  split; [exact C|]. split; [exact S|exact R].
Qed.

Lemma suspicious_url_shape_witness :
  In "http://bit.ly/a" (suspicious_urls three_urls_message) /\
  is_prefix "http://" "http://bit.ly/a" = true.
Proof.
  assert (H : In "http://bit.ly/a" (suspicious_urls three_urls_message))
    by (vm_compute; left; reflexivity).
  split; [exact H|].
  destruct (suspicious_url_shape three_urls_message "http://bit.ly/a" H)
    as (_ & _ & [P | P] & _); [exact P | vm_compute in P; discriminate P].
Defined.

(** The URL pattern is case-sensitive: a message without a lower-case "http" yields
    no URL and a URL score of 0. *)
Theorem no_lowercase_http_no_urls :
  forall m : string, contains "http" m = false ->
    findall url_pattern m = [] /\ suspicious_urls m = [] /\ url_score m = 0.
Proof.
  intros m H.
  assert (F : findall url_pattern m = []).
  { destruct (findall url_pattern m) as [|w ws] eqn:F; [reflexivity|].
    assert (Hw : In w (findall url_pattern m)) by (rewrite F; left; reflexivity).
    destruct (findall_url_facts m w Hw) as (C & P & _).
    assert (Hh : contains "http" w = true).
    { apply contains_spec. destruct P as [P | P]; apply is_prefix_spec in P as [v ->].
      - exists "", ("://" ++ v). reflexivity.
      - exists "", ("s://" ++ v). reflexivity. }
    rewrite (contains_trans _ _ _ Hh C) in H. discriminate H. }
  destruct (suspicious_urls_filter m) as [Es Eu].
  rewrite F in Es. simpl in Es.
  split; [exact F|]. split; [exact Es|]. rewrite Eu, Es. reflexivity.
Qed.

Lemma no_lowercase_http_no_urls_witness :
  contains "http" "Verify at HTTP://BIT.LY/x now" = false /\
  url_score "Verify at HTTP://BIT.LY/x now" = 0.
Proof.
  assert (H : contains "http" "Verify at HTTP://BIT.LY/x now" = false)
    by (vm_compute; reflexivity).
  split; [exact H|].
  exact (proj2 (proj2 (no_lowercase_http_no_urls _ H))).
Defined.

(** ** Structure of the detectors and of the report *)


Lemma keyword_fold_filter (ml : string) (l : list (string * Z)) (s : Z) (ms : list string) :
  fold_left (keyword_step ml) l (s, ms)
  = (s + weight_sum (filter (fun e => contains (fst e) ml) l),
     (ms ++ map fst (filter (fun e => contains (fst e) ml) l))%list).
Proof.
  revert s ms. induction l as [|[kw w] l IH]; intros s ms; cbn [fold_left filter fst].
  - rewrite Z.add_0_r, app_nil_r. reflexivity.
  - unfold keyword_step at 2. destruct (contains kw ml); rewrite IH; simpl.
    + rewrite <- app_assoc. f_equal. lia.
    + reflexivity.
Qed.

Lemma map_fst_filter {B} (f : string -> bool) (l : list (string * B)) :
  map fst (filter (fun e => f (fst e)) l) = filter f (map fst l).
Proof.
  induction l as [|[a b] l IH]; simpl; [reflexivity|].
  destruct (f a); simpl; rewrite IH; reflexivity.
Qed.

Lemma keyword_names_nodup : nodup string_dec keyword_names = keyword_names.
Proof. vm_compute. reflexivity. Qed.

Lemma keyword_norm_table : forallb keyword_norm_ok (zrange 127) = true.
Proof. vm_compute. reflexivity. Qed.

(** The keyword detector in closed form: the matches are the keywords (in table order,
    without repetition) contained in the lower-cased message, the raw score is the sum
    of their weights, and the score is twice it capped at 100, except 57 for a raw
    score of 29, which some message reaches. *)
Theorem keyword_detector_closed_form :
  raw_keyword_score raw29_message = 29 /\ keyword_score raw29_message = 57 /\
  forall m : string,
    let hits := filter (fun e => contains (fst e) (lower m)) FRAUD_KEYWORDS in
    keyword_matches m = map fst hits /\
    NoDup (keyword_matches m) /\
    raw_keyword_score m = weight_sum hits /\
    keyword_score m = (if weight_sum hits =? 29 then 57 else Z.min 100 (2 * weight_sum hits)).
Proof.
  split; [vm_compute; reflexivity|]. split; [vm_compute; reflexivity|].
  intros m hits.
  assert (E : fold_left (keyword_step (lower m)) FRAUD_KEYWORDS (0, [])
              = (weight_sum hits, map fst hits)).
  { rewrite keyword_fold_filter. reflexivity. }
  assert (Hraw : raw_keyword_score m = weight_sum hits).
  { unfold raw_keyword_score. rewrite E. reflexivity. }
  refine (conj _ (conj _ (conj Hraw _))).
  - unfold keyword_matches, analyze_keywords. rewrite E. reflexivity.
  - unfold keyword_matches, analyze_keywords. rewrite E. cbn [snd].
    subst hits. rewrite (map_fst_filter (fun kw => contains kw (lower m))).
    apply NoDup_filter. fold keyword_names. rewrite <- keyword_names_nodup.
    apply NoDup_nodup.
  - rewrite keyword_score_raw, Hraw. rewrite <- Hraw.
    pose proof (raw_keyword_score_range m) as R.
    pose proof keyword_norm_table as T. rewrite forallb_forall in T.
    assert (Hin : In (raw_keyword_score m) (zrange 127)) by (apply in_zrange; simpl; lia).
    specialize (T _ Hin).
    apply Z.eqb_eq in T. exact T.
Qed.

(** The urgency score is 20 per matching pattern capped at 100; the sensitive score is
    30 per matching pattern and never exceeds 90. *)
Theorem urgency_sensitive_counts :
  forall m : string,
    let nu := List.length (filter (fun p => search_i p m) URGENCY_PATTERNS) in
    let ns := List.length (filter (fun p => search_i p m) SENSITIVE_INFO_PATTERNS) in
    analyze_urgency m = Z.min 100 (20 * Z.of_nat nu) /\ (nu <= 6)%nat /\
    analyze_sensitive_requests m = 30 * Z.of_nat ns /\ (ns <= 3)%nat /\
    analyze_sensitive_requests m <= 90.
Proof.
  intros m nu ns.
  pose proof (fold_count (fun p => search_i p m) 20 URGENCY_PATTERNS 0) as Eu.
  pose proof (fold_count (fun p => search_i p m) 30 SENSITIVE_INFO_PATTERNS 0) as Es.
  cbv beta in Eu, Es.
  pose proof (filter_length_le (fun p => search_i p m) URGENCY_PATTERNS) as Lu.
  pose proof (filter_length_le (fun p => search_i p m) SENSITIVE_INFO_PATTERNS) as Ls.
  change (List.length URGENCY_PATTERNS) with 6%nat in Lu.
  change (List.length SENSITIVE_INFO_PATTERNS) with 3%nat in Ls.
  fold nu in Eu, Lu. fold ns in Es, Ls.
  unfold analyze_urgency, analyze_sensitive_requests. rewrite Eu, Es.
  split; [f_equal; lia|]. split; [exact Lu|].
  split; [|split; [exact Ls|]]; lia.
Qed.

Lemma risk_formula_le_99 (st : Q) (k u g s : Z) :
  (st <= 100)%Q -> k <= 100 -> u <= 100 -> g <= 100 -> s <= 90 ->
  risk_formula st k u g s <= 99.
Proof.
  intros Hst Hk Hu Hg Hs. unfold risk_formula.
  rewrite Zle_Qle in Hk, Hu, Hg, Hs.
  assert (B : (st * (40 # 100) + inject_Z k * (25 # 100) + inject_Z u * (20 # 100)
               + inject_Z g * (10 # 100) + inject_Z s * (5 # 100) <= 199 # 2)%Q).
  { apply Qle_trans with
      (100 * (40 # 100) + inject_Z 100 * (25 # 100) + inject_Z 100 * (20 # 100)
       + inject_Z 100 * (10 # 100) + inject_Z 90 * (5 # 100))%Q.
    - repeat apply Qplus_le_compat; apply Qmult_le_compat_r; try assumption;
        unfold Qle; simpl; lia.
    - unfold Qle; simpl; lia. }
  apply Qfloor_resp_le in B.
  replace (Qfloor (199 # 2)) with 99 in B by reflexivity. exact B.
Qed.

Lemma sensitive_le_90 (m : string) : analyze_sensitive_requests m <= 90.
Proof.
  pose proof (sensitive_in_domain m) as H.
  assert (T : forallb (fun v => v <=? 90) sensitive_domain = true) by (vm_compute; reflexivity).
  rewrite forallb_forall in T. apply Z.leb_le, T, H.
Qed.

(** The risk score never exceeds 99. *)
Theorem risk_score_at_most_99 :
  forall m : string, 0 <= risk_score (detect_fraud m) <= 99.
Proof.
  intros m.
  destruct (report_bounds m) as ([_ B1] & [_ B2] & [_ B3] & [_ B4] & _ & [Br _] & _).
  destruct (detect_fraud_risk m) as [E _].
  split; [exact Br|]. rewrite E.
  apply risk_formula_le_99; auto using sensitive_le_90.
Qed.

Lemma style_table : forallb style_table_ok (zrange 7) = true.
Proof. vm_compute. reflexivity. Qed.

Lemma style_by_count (m : string) :
  style_score m = nlp_score_of (fraud_indicators m) /\
  style_label m = label_of_count (fraud_indicators m) /\
  F64.geb (style_score m) (F64.of_Z 60) = (4 <=? fraud_indicators m) /\
  0 <= fraud_indicators m <= 6.
Proof.
  destruct (style_confidence_facts m) as (_ & Es & El).
  pose proof (fraud_indicators_range m) as R.
  pose proof style_table as T. rewrite forallb_forall in T.
  assert (Hin : In (fraud_indicators m) (zrange 7)) by (apply in_zrange; simpl; lia).
  specialize (T _ Hin). unfold style_table_ok in T.
  apply andb_prop in T as [T1 T2]. apply String.eqb_eq in T1. apply Bool.eqb_prop in T2.
  refine (conj Es (conj _ (conj _ R))).
  - unfold style_label. rewrite simple_nlp_fraud_score_eq. exact T1.
  - rewrite Es. exact T2.
Qed.

(** The style label depends only on the number k of style indicators: fraud for k >= 4,
    suspicious for k = 3, safe for k <= 2. *)
Theorem style_label_thresholds :
  forall m : string,
    let k := fraud_indicators m in
    (style_label m = "fraud" <-> 4 <= k) /\
    (style_label m = "suspicious" <-> k = 3) /\
    (style_label m = "safe" <-> k <= 2).
Proof.
  intros m k. destruct (style_by_count m) as (_ & El & _ & R). fold k in El, R.
  rewrite El. unfold label_of_count.
  destruct (Z.leb_spec 4 k); [|destruct (Z.eqb_spec k 3)];
    repeat split; intros Hx; try discriminate Hx; try reflexivity; lia.
Qed.

Lemma detect_fraud_explanations (m : string) :
  explanations (detect_fraud m)
  = explanations_spec (style_score m) (keyword_matches m) (suspicious_urls m)
                      (analyze_urgency m) (analyze_sensitive_requests m).
Proof.
  destruct (detect_fraud_fields m) as (_ & _ & He & _). rewrite He.
  apply build_explanations_spec.
Qed.

(** The AI explanation comes first exactly when at least 4 style indicators fire, with
    the rounded percentage 67, 83 or 100; otherwise no explanation mentions the AI. *)
Theorem ai_explanation_first :
  forall m : string,
    let k := fraud_indicators m in
    (4 <= k -> hd_error (explanations (detect_fraud m)) = Some (ai_explanation k)) /\
    (k < 4 -> forall e, In e (explanations (detect_fraud m)) ->
              is_prefix "AI detected" e = false) /\
    ai_percent 4 = "67" /\ ai_percent 5 = "83" /\ ai_percent 6 = "100".
Proof.
  intros m k. destruct (style_by_count m) as (Es & _ & Eg & _). fold k in Es, Eg.
  rewrite detect_fraud_explanations. unfold explanations_spec. rewrite Eg.
  refine (conj _ (conj _ (conj _ (conj _ _)))); [| |vm_compute; reflexivity ..].
  - intros H. apply Z.leb_le in H. rewrite H. cbn. rewrite Es. reflexivity.
  - intros H. apply Z.leb_gt in H. rewrite H.
    destruct (is_empty (keyword_matches m)), (is_empty (suspicious_urls m)),
      (40 <=? analyze_urgency m), (30 <=? analyze_sensitive_requests m);
      cbn; intros e He; repeat destruct He as [<- | He]; try destruct He; reflexivity.
Qed.

Lemma ai_explanation_first_witness :
  4 <= fraud_indicators "URGENT!! Click to verify your bank account now" /\
  hd_error (explanations (detect_fraud "URGENT!! Click to verify your bank account now"))
  = Some (ai_explanation (fraud_indicators "URGENT!! Click to verify your bank account now")).
Proof.
  assert (H : 4 <= fraud_indicators "URGENT!! Click to verify your bank account now")
    by (vm_compute; discriminate).
  split; [exact H|].
  exact (proj1 (ai_explanation_first "URGENT!! Click to verify your bank account now") H).
Defined.

(** A report carries between 1 and 5 explanations. *)
Theorem explanations_count :
  forall m : string, (1 <= List.length (explanations (detect_fraud m)) <= 5)%nat.
Proof.
  intros m. rewrite detect_fraud_explanations. unfold explanations_spec.
  destruct (F64.geb _ _), (is_empty (keyword_matches m)), (is_empty (suspicious_urls m)),
    (40 <=? analyze_urgency m), (30 <=? analyze_sensitive_requests m); cbn; lia.
Qed.

Lemma detect_fraud_nlp (m : string) :
  nlp (details (detect_fraud m)) =
  {| nlp_fraud_score := F64.py_round (style_score m) 1;
     nlp_label := style_label m;
     nlp_confidence := F64.py_round (style_confidence m) 2 |}.
Proof.
  unfold detect_fraud, style_score, style_label, style_confidence.
  destruct (analyze_keywords m) as [k km].
  destruct (analyze_urls m) as [u us].
  destruct (simple_nlp_fraud_score m) as [[s l] c].
  reflexivity.
Qed.

Lemma reported_score_table :
  map (fun k => F64.py_round (nlp_score_of k) 1) (zrange 7)
  = [F64.of_Z 0; F64.lit 167 10; F64.lit 333 10; F64.of_Z 50;
     F64.lit 667 10; F64.lit 833 10; F64.of_Z 100].
Proof. vm_compute. reflexivity. Qed.

(** The reported nlp fraud score takes one of seven values, and the reported nlp label
    is the style label. *)
Theorem reported_nlp_score_values :
  forall m : string,
    In (nlp_fraud_score (nlp (details (detect_fraud m))))
       [F64.of_Z 0; F64.lit 167 10; F64.lit 333 10; F64.of_Z 50;
        F64.lit 667 10; F64.lit 833 10; F64.of_Z 100] /\
    nlp_label (nlp (details (detect_fraud m))) = style_label m.
Proof.
  intros m. rewrite detect_fraud_nlp. cbn [nlp_fraud_score nlp_label].
  split; [|reflexivity].
  destruct (style_by_count m) as (Es & _ & _ & R). rewrite Es, <- reported_score_table.
  apply (in_map (fun k => F64.py_round (nlp_score_of k) 1)).
  apply in_zrange. simpl. lia.
Qed.

Lemma detect_request_parsed (data : json) : detect_request (inr data) = detect data.
Proof. reflexivity. Qed.

(** The endpoint answers 500 exactly when [request.get_json()] raises (a
    malformed or non-JSON body), or when the parsed body is a truthy boolean or
    number, a list holding the string "message", a string containing "message",
    or an object whose truthy "message" entry is not a string. *)
Theorem detect_server_error :
  forall parsed : py_exn + json,
    status (detect_request parsed) = 500 <->
    (exists e, parsed = inl e) \/
    (exists data, parsed = inr data /\ truthy data = true /\
     ((exists b, data = JBool b) \/ (exists q, data = JNum q) \/
      (exists items, data = JArr items /\ In (JStr "message") items) \/
      (exists s, data = JStr s /\ contains "message" s = true) \/
      (exists entries v, data = JObj entries /\ json_lookup "message" entries = Some v /\
         truthy v = true /\ forall m, v <> JStr m))).
Proof.
  intros [e | data].
  - split; [intros _; left; exists e; reflexivity | reflexivity].
  - rewrite detect_request_parsed, detect_parsed_server_error. split.
    + intros H. right. exists data. split; [reflexivity | exact H].
    + intros [(e & H) | (d & H & R)]; [discriminate H|].
      injection H as <-. exact R.
Qed.
